(** * pvr: the pip bootstrap installer ([pvr/installer.py], [pvr/cli.py])

    A shallow embedding of [LinkExtractor], [PipInstaller] and of the
    [create] command, with the properties of the link extraction, candidate
    selection, download cache and process invocation.

    Python [str] values are modelled by [string] (sequences of code points
    below 256), [bytes] by [list byte], exceptions by the type [exn], and the
    mutable surroundings of the program (file system, network requests,
    sessions, spawned processes) by the record [World], threaded through a
    state-and-exception monad. *)

From Stdlib Require Import ZArith Lia List String Ascii Sorted.
From Stdlib.Strings Require Import Byte.
From stdpp Require Import base gmap strings list.

Local Open Scope string_scope.
Local Open Scope Z_scope.
Local Open Scope list_scope.

(** ** Python built-ins used by the source *)

Module Py.

(** [s.startswith(prefix)] *)
Fixpoint startswith (s prefix : string) : bool :=
  match prefix, s with
  | EmptyString, _ => true
  | String _ _, EmptyString => false
  | String p ps, String c cs => if Ascii.eqb c p then startswith cs ps else false
  end.

(** [s[n:]] for [0 <= n] *)
Fixpoint drop_chars (n : nat) (s : string) : string :=
  match n, s with
  | O, _ => s
  | S _, EmptyString => EmptyString
  | S m, String _ r => drop_chars m r
  end.

(** [s[:n]] for [0 <= n] *)
Fixpoint take_chars (n : nat) (s : string) : string :=
  match n, s with
  | O, _ => EmptyString
  | S _, EmptyString => EmptyString
  | S m, String c r => String c (take_chars m r)
  end.

(** [s.endswith(suffix)]: the last [len(suffix)] characters are [suffix]. *)
Definition endswith (s suffix : string) : bool :=
  if Nat.ltb (String.length s) (String.length suffix) then false
  else String.eqb (drop_chars (String.length s - String.length suffix) s) suffix.

(** [s.split(sep)] for a one-character separator: always at least one
    token, one more than the number of separators. *)
Fixpoint split (sep : ascii) (s : string) : list string :=
  match s with
  | EmptyString => [EmptyString]
  | String c r =>
      if Ascii.eqb c sep then EmptyString :: split sep r
      else match split sep r with
           | tok :: toks => String c tok :: toks
           | [] => [String c EmptyString]
           end
  end.

(** [sep in s] *)
Fixpoint contains (sep : ascii) (s : string) : bool :=
  match s with
  | EmptyString => false
  | String c r => Ascii.eqb c sep || contains sep r
  end.

(** [s.rfind(c)]: index of the last occurrence, [-1] when there is none. *)
Fixpoint rfind_from (c : ascii) (s : string) (i found : Z) : Z :=
  match s with
  | EmptyString => found
  | String a r => rfind_from c r (i + 1) (if Ascii.eqb a c then i else found)
  end.

Definition rfind (c : ascii) (s : string) : Z := rfind_from c s 0 (-1).

(** [s.rstrip(c)] *)
Fixpoint rstrip (c : ascii) (s : string) : string :=
  match s with
  | EmptyString => EmptyString
  | String a r =>
      match rstrip c r with
      | EmptyString => if Ascii.eqb a c then EmptyString else String a EmptyString
      | r' => String a r'
      end
  end.

(** [all(ch == c for ch in s)], used for [head != '/' * len(head)] *)
Fixpoint all_chars (c : ascii) (s : string) : bool :=
  match s with
  | EmptyString => true
  | String a r => Ascii.eqb a c && all_chars c r
  end.

(** [s[-1]], when [s] is not empty *)
Fixpoint last_char (s : string) : option ascii :=
  match s with
  | EmptyString => None
  | String a r => match last_char r with None => Some a | Some c => Some c end
  end.

(** [s.encode("utf8")] on code points below 256. *)
Definition utf8_char (c : ascii) : list byte :=
  let n := N_of_ascii c in
  if N.ltb n 128 then [byte_of_ascii c]
  else match Byte.of_N (192 + N.shiftr n 6), Byte.of_N (128 + N.land n 63) with
       | Some hi, Some lo => [hi; lo]
       | _, _ => []
       end.

Fixpoint encode_utf8 (s : string) : list byte :=
  match s with
  | EmptyString => []
  | String c r => utf8_char c ++ encode_utf8 r
  end.

End Py.

(** ** [posixpath] *)

Module posixpath.

(** [i = p.rfind('/') + 1; return p[i:]] *)
Definition basename (p : string) : string :=
  let i := Py.rfind "/" p + 1 in
  Py.drop_chars (Z.to_nat i) p.

(** [i = p.rfind('/') + 1; head = p[:i];
     if head and head != '/'*len(head): head = head.rstrip('/')] *)
Definition dirname (p : string) : string :=
  let i := Py.rfind "/" p + 1 in
  let head := Py.take_chars (Z.to_nat i) p in
  if negb (String.eqb head EmptyString) && negb (Py.all_chars "/" head)
  then Py.rstrip "/" head else head.

(** One round of the loop of [join(a, *p)]. *)
Definition join_step (path b : string) : string :=
  if Py.startswith b "/" then b
  else if String.eqb path EmptyString || Py.endswith path "/" then path +:+ b
  else path +:+ "/" +:+ b.

Definition join (a : string) (p : list string) : string :=
  fold_left join_step p a.

End posixpath.

(** ** Exceptions and outcomes *)

(** The exception classes that can leave the modelled functions. *)
Inductive exn : Type :=
  | HTTPError (status_code : Z)          (* requests: raise_for_status *)
  | ConnectionError                      (* requests: no response at all *)
  | IndexError                           (* list index out of range *)
  | InvalidVersion (s : string)          (* packaging.version *)
  | NoAcceptableFile                     (* pvr.installer *)
  | TypeError
  | FileExistsError
  | FileNotFoundError
  | NotADirectoryError
  | IsADirectoryError
  | CalledProcessError (returncode : Z)  (* subprocess.check_call *)
  | ClickException                       (* click *)
  | OtherError (name : string).

Inductive outcome (A : Type) : Type :=
  | Return (a : A)
  | Raise (e : exn).
Arguments Return {A} a.
Arguments Raise {A} e.

(** ** The surroundings of the program *)

(** [requests.Response]: the fields the source reads. *)
Record Response : Type := mkResponse {
  status_code : Z;
  text : string;
  content : list byte;
}.

(** The file system: regular files with their bytes, and directories.
    Paths are compared as strings. *)
Record FS : Type := mkFS {
  files : gmap string (list byte);
  dirs : gset string;
}.

(** A start tag as [html.parser] hands it to [handle_starttag]: the
    lower-cased tag name and the attribute list, a value being [None] for an
    attribute written without one. *)
Definition attrs_t : Type := list (string * option string).

(** The libraries and collaborators the source calls and whose code is not
    part of the package. *)
Class Platform : Type := {
  (** [packaging.version]: the parsed version objects, [parse] ([None] when
      it raises [InvalidVersion]) and the comparison [<]. *)
  Version : Type;
  version_parse : string -> option Version;
  version_lt : Version -> Version -> bool;
  (** [urllib.parse.urljoin(base, url)] and [urllib.parse.urlparse(url).path] *)
  urljoin : string -> option string -> string;
  urlparse_path : string -> string;
  (** the start tags [HTMLParser.feed] followed by [close] reports for a
      document, in document order *)
  html_starttags : string -> list (string * attrs_t);
  (** [hashlib.sha256(data).digest()] *)
  sha256 : list byte -> list byte;
  (** the response to the GET of a URL, given the URLs requested before;
      [None] when no response arrives *)
  http_get : list string -> string -> option Response;
  (** the process started by [subprocess]: exit status (or the error that
      prevented its start) and what it did to the file system *)
  run_process : list string -> list (string * string) -> FS -> outcome Z * FS;
  (** [pvr.builder.EnvBuilder(...).create(target)] *)
  builder_create : string -> FS -> outcome unit * FS;
}.

(** Everything the program can change. *)
Record World : Type := mkWorld {
  fs : FS;
  gets : list string;                 (* URLs requested so far, oldest first *)
  sessions : list bool;               (* requests sessions: [true] while open *)
  procs : list (list string * list (string * string));  (* argv and env of each spawned process *)
}.

Definition set_fs (f : FS) (w : World) : World :=
  {| fs := f; gets := gets w; sessions := sessions w; procs := procs w |}.
Definition set_gets (g : list string) (w : World) : World :=
  {| fs := fs w; gets := g; sessions := sessions w; procs := procs w |}.
Definition set_sessions (s : list bool) (w : World) : World :=
  {| fs := fs w; gets := gets w; sessions := s; procs := procs w |}.
Definition set_procs (p : list (list string * list (string * string))) (w : World) : World :=
  {| fs := fs w; gets := gets w; sessions := sessions w; procs := p |}.

(** State and exceptions: what a statement does to the world, and whether it
    completes or raises. The effects made before a [Raise] stay. *)
Definition M (A : Type) : Type := World -> outcome A * World.

Definition ret {A} (a : A) : M A := fun w => (Return a, w).
Definition raise {A} (e : exn) : M A := fun w => (Raise e, w).
Definition bind {A B} (m : M A) (k : A -> M B) : M B :=
  fun w => match m w with
           | (Return a, w') => k a w'
           | (Raise e, w') => (Raise e, w')
           end.
Definition lift {A} (o : outcome A) : M A := fun w => (o, w).

Notation "'let!' x ':=' m 'in' k" := (bind m (fun x => k))
  (at level 10, x name, m at level 100, k at level 200).

(** ** [os], [os.path], [open] *)

Module os.

(** [os.path.exists(p)] *)
Definition path_exists (p : string) (f : FS) : bool :=
  bool_decide (is_Some (files f !! p)) || bool_decide (p ∈ dirs f).

(** [os.mkdir(name)] *)
Definition mkdir (name : string) (f : FS) : outcome FS :=
  if path_exists name f then Raise FileExistsError
  else
    let parent := posixpath.dirname name in
    if bool_decide (is_Some (files f !! parent)) then Raise NotADirectoryError
    else if negb (String.eqb parent EmptyString) && negb (Py.all_chars "/" parent)
            && negb (bool_decide (parent ∈ dirs f))
    then Raise FileNotFoundError
    else Return {| files := files f; dirs := {[name]} ∪ dirs f |}.

(** [os.makedirs(name)] ([exist_ok=False]): create the missing ancestors,
    then the leaf. The recursion is on the length of [name]. *)
Fixpoint makedirs_rec (fuel : nat) (name : string) (f : FS) : outcome FS :=
  let head := posixpath.dirname name in
  let tail := posixpath.basename name in
  let '(head, tail) :=
    if String.eqb tail EmptyString then (posixpath.dirname head, posixpath.basename head)
    else (head, tail) in
  if negb (String.eqb head EmptyString) && negb (String.eqb tail EmptyString)
     && negb (path_exists head f)
  then
    match fuel with
    | O => Raise (OtherError "RecursionError")
    | S fuel' =>
        match makedirs_rec fuel' head f with
        | Raise FileExistsError => if String.eqb tail "." then Return f else mkdir name f
        | Raise e => Raise e
        | Return f' => if String.eqb tail "." then Return f' else mkdir name f'
        end
    end
  else mkdir name f.

Definition makedirs (name : string) (f : FS) : outcome FS :=
  makedirs_rec (String.length name) name f.

(** [with open(path, "wb") as fp: fp.write(data)] *)
Definition write_file (path : string) (data : list byte) (f : FS) : outcome FS :=
  if bool_decide (path ∈ dirs f) || Py.endswith path "/" || String.eqb path EmptyString
  then Raise IsADirectoryError
  else
    let parent := posixpath.dirname path in
    if bool_decide (is_Some (files f !! parent)) then Raise NotADirectoryError
    else if negb (String.eqb parent EmptyString) && negb (Py.all_chars "/" parent)
            && negb (bool_decide (parent ∈ dirs f))
    then Raise FileNotFoundError
    else Return {| files := <[path := data]> (files f); dirs := dirs f |}.

End os.

(** An operation on the file system as a statement. *)
Definition on_fs (op : FS -> outcome FS) : M unit :=
  fun w => match op (fs w) with
           | Return f' => (Return tt, set_fs f' w)
           | Raise e => (Raise e, w)
           end.

Definition os_path_exists (p : string) : M bool :=
  fun w => (Return (os.path_exists p (fs w)), w).

(** [hashlib]: [hexdigest()] writes each byte of the digest as two lower-case
    hexadecimal digits. *)
Definition hex_digit (n : N) : ascii :=
  if N.ltb n 10 then ascii_of_N (48 + n) else ascii_of_N (87 + n).

Fixpoint hexlify (digest : list byte) : string :=
  match digest with
  | [] => EmptyString
  | b :: r =>
      let n := Byte.to_N b in
      String (hex_digit (N.div n 16)) (String (hex_digit (N.modulo n 16)) (hexlify r))
  end.

(** ** [pvr/installer.py] *)

(** [Candidate = namedtuple("Candidate", ["version", "url", "filename"])],
    over the type of the parsed versions. *)
Record Candidate (V : Type) : Type := mkCandidate {
  version : V;
  url : string;
  filename : string;
}.
Arguments mkCandidate {V} version url filename.
Arguments version {V} c.
Arguments url {V} c.
Arguments filename {V} c.

Section Installer.

Context `{platform : Platform}.

(** *** [class LinkExtractor(html.parser.HTMLParser)] *)

Record LinkExtractor : Type := mkLinkExtractor {
  base_url : string;
  links : list string;
}.

(** [__init__]: [self.base_url = kwargs.pop("base_url"); self.links = []] *)
Definition LinkExtractor_init (base : string) : LinkExtractor :=
  {| base_url := base; links := [] |}.

(** The first loop of [handle_starttag], a [for ... else]: [true] when it
    leaves through [break], [false] when the [else] branch returns. *)
Fixpoint rel_internal_loop (attrs : attrs_t) : bool :=
  match attrs with
  | [] => false
  | (attr, value) :: rest =>
      if String.eqb attr "rel" && bool_decide (value = Some "internal") then true
      else rel_internal_loop rest
  end.

(** The second loop: every [href] attribute appends a link. *)
Fixpoint href_loop (self : LinkExtractor) (attrs : attrs_t) : LinkExtractor :=
  match attrs with
  | [] => self
  | (attr, value) :: rest =>
      let self' :=
        if String.eqb attr "href"
        then {| base_url := base_url self;
                links := links self ++ [urljoin (base_url self) value] |}
        else self in
      href_loop self' rest
  end.

Definition handle_starttag (self : LinkExtractor) (tag : string) (attrs : attrs_t)
  : LinkExtractor :=
  (* We only care about <a> tags. *)
  if negb (String.eqb tag "a") then self
  (* If there's no attrs then we don't care about this link either *)
  else if bool_decide (attrs = []) then self
  (* We only care about rel=internal links *)
  else if negb (rel_internal_loop attrs) then self
  else href_loop self attrs.

(** The parser calls [handle_starttag] once per start tag. *)
Definition dispatch (self : LinkExtractor) (events : list (string * attrs_t))
  : LinkExtractor :=
  fold_left (fun s ev => handle_starttag s (fst ev) (snd ev)) events self.

(** [parser.feed(data); parser.close()] *)
Definition feed (self : LinkExtractor) (data : string) : LinkExtractor :=
  dispatch self (html_starttags data).

(** *** [sorted(..., key=..., reverse=True)]

    [sorted] is stable and compares keys with [<] only. It is modelled by
    the stable insertion sort (an element goes behind the elements that
    are not greater); with [reverse=True] the list is reversed, sorted and
    reversed again, which keeps equal keys in their original order. *)

Definition key_lt (a b : Candidate Version) : bool := version_lt (version a) (version b).

Fixpoint insert (x : Candidate Version) (l : list (Candidate Version))
  : list (Candidate Version) :=
  match l with
  | [] => [x]
  | y :: r => if key_lt x y then x :: l else y :: insert x r
  end.

Definition sort (l : list (Candidate Version)) : list (Candidate Version) :=
  fold_left (fun acc x => insert x acc) l [].

Definition sorted_reverse (l : list (Candidate Version)) : list (Candidate Version) :=
  rev (sort (rev l)).

(** *** [class PipInstaller] *)

Record PipInstaller : Type := mkPipInstaller {
  environment : string;
  cache_dir : option string;
  session : nat;                      (* index into [sessions] *)
}.

(** [__init__]: the joined path of the first statement is dropped;
    [requests.session()] opens a new session. *)
Definition PipInstaller_init (environment0 : string) (cache_dir0 : option string)
  : M PipInstaller :=
  fun w =>
    let _ := match cache_dir0 with
             | Some d => posixpath.join d ["pip"]
             | None => EmptyString
             end in
    (Return {| environment := environment0; cache_dir := cache_dir0;
               session := length (sessions w) |},
     set_sessions (sessions w ++ [true]) w).

(** [close]: [self.session.close()] *)
Definition close (self : PipInstaller) : M unit :=
  fun w => (Return tt, set_sessions (<[session self := false]> (sessions w)) w).

(** [__enter__] returns [self]. *)
Definition enter (self : PipInstaller) : M PipInstaller := ret self.

(** [__exit__] calls [close] and returns [None], which is false. *)
Definition exit (self : PipInstaller) : M bool :=
  let! _ := close self in ret false.

(** [self.session.get(url)] *)
Definition session_get (self : PipInstaller) (u : string) : M Response :=
  fun w =>
    (match http_get (gets w) u with
     | Some resp => Return resp
     | None => Raise ConnectionError
     end,
     set_gets (gets w ++ [u]) w).

(** [resp.raise_for_status()]: status codes 400 to 599 raise. *)
Definition raise_for_status (resp : Response) : M unit :=
  if Z.leb 400 (status_code resp) && Z.ltb (status_code resp) 600
  then raise (HTTPError (status_code resp)) else ret tt.

(** The loop of [find] over [parser.links]. *)
Fixpoint candidates_loop (ls : list string) (candidates : list (Candidate Version))
  : outcome (list (Candidate Version)) :=
  match ls with
  | [] => Return candidates
  | link :: rest =>
      let filename0 := posixpath.basename (urlparse_path link) in
      (* We only support installation from Wheels. *)
      if negb (Py.endswith filename0 ".whl") then candidates_loop rest candidates
      else
        let wheel_parts := Py.split "-" filename0 in
        match wheel_parts !! 1%nat with
        | None => Raise IndexError
        | Some part =>
            match version_parse part with
            | None => Raise (InvalidVersion part)
            | Some v =>
                candidates_loop rest
                  (candidates ++ [{| version := v; url := link; filename := filename0 |}])
            end
        end
  end.

Definition default_index_url : string := "https://pypi.python.org/simple/".

Definition find (self : PipInstaller) (index_url : string) : M (Candidate Version) :=
  let simple := urljoin index_url (Some "pip/") in
  (* Fetch the simple page for pip. *)
  let! resp := session_get self simple in
  let! _ := raise_for_status resp in
  (* Parse the simple page looking for links *)
  let parser := feed (LinkExtractor_init simple) (text resp) in
  let! candidates := lift (candidates_loop (links parser) []) in
  (* Ensure we have a candidate *)
  if bool_decide (candidates = []) then raise NoAcceptableFile
  else
    (* Sort the versions, and return the latest one *)
    match sorted_reverse candidates !! 0%nat with
    | Some c => ret c
    | None => raise IndexError
    end.

(** [hashlib.sha256(candidate.url.encode("utf8")).hexdigest()] *)
Definition hashed (candidate : Candidate Version) : string :=
  hexlify (sha256 (Py.encode_utf8 (url candidate))).

Definition download (self : PipInstaller) (candidate : Candidate Version) : M string :=
  match cache_dir self with
  | None => raise TypeError           (* os.path.join(None, ...) *)
  | Some cache_dir0 =>
      let cache_path := posixpath.join cache_dir0 [hashed candidate; filename candidate] in
      let! present := os_path_exists cache_path in
      let! _ :=
        if negb present then
          (* Download the file *)
          let! resp := session_get self (url candidate) in
          let! _ := raise_for_status resp in
          (* Create our cache directory if it does not exist *)
          let! dir_present := os_path_exists (posixpath.dirname cache_path) in
          let! _ := if negb dir_present
                    then on_fs (os.makedirs (posixpath.dirname cache_path))
                    else ret tt in
          (* Cache the file. *)
          on_fs (os.write_file cache_path (content resp))
        else ret tt in
      ret cache_path
  end.

(** [subprocess.check_call(args, env=env, stdout=DEVNULL)] *)
Definition check_call (args : list string) (env : list (string * string)) : M unit :=
  fun w =>
    let w1 := set_procs (procs w ++ [(args, env)]) w in
    match run_process args env (fs w) with
    | (Return code, f') =>
        if Z.eqb code 0 then (Return tt, set_fs f' w1)
        else (Raise (CalledProcessError code), set_fs f' w1)
    | (Raise e, f') => (Raise e, set_fs f' w1)
    end.

(** [ "import pip; pip.main(['install', '{0}'])".format(filename) ] *)
Definition pip_command (filename0 : string) : string :=
  "import pip; pip.main(['install', '" +:+ filename0 +:+ "'])".

Definition install (self : PipInstaller) : M unit :=
  (* Locate the latest version of pip *)
  let! candidate := find self default_index_url in
  (* Download the file and store it in our cache. *)
  let! filename0 := download self candidate in
  check_call
    [posixpath.join (environment self) ["bin"; "python"]; "-c"; pip_command filename0]
    [("PYTHONPATH", filename0)].

(** ** [pvr/cli.py] *)

(** [with EXPR as installer: BODY] for a [PipInstaller]: [__exit__] runs
    when the body completes and when it raises; the exception is raised
    again unless [__exit__] returns a true value. *)
Definition with_installer (expr : M PipInstaller) (body : PipInstaller -> M unit)
  : M unit :=
  let! mgr := expr in
  let! installer := enter mgr in
  fun w =>
    match body installer w with
    | (Return _, w') => (let! _ := exit mgr in ret tt) w'
    | (Raise e, w') =>
        match exit mgr w' with
        | (Return suppress, w'') => if suppress then (Return tt, w'') else (Raise e, w'')
        | (Raise e', w'') => (Raise e', w'')
        end
    end.

(** [create(ctx, name)], with [ctx.obj["dirs"]] given by its two entries. *)
Definition create (environments cache : string) (name : string) : M unit :=
  (* Compute the target path for this environment. *)
  let target := posixpath.join environments [name] in
  (* Determine if this environment already exists. *)
  let! present := os_path_exists target in
  if present then raise ClickException
  else
    (* Create the new virtual environment *)
    let! _ := (fun w => let '(r, f') := builder_create target (fs w) in (r, set_fs f' w)) in
    (* Install pip into the virtual environment. *)
    with_installer (PipInstaller_init target (Some cache)) install.

End Installer.

(** ** A platform to run the program on

    [hashlib.sha256] (FIPS 180-4), a fragment of the version scheme of
    [packaging], URL handling for absolute [http(s)] URLs, and a small site
    with its index pages; the examples below evaluate the program there. *)

Module SHA256.

Local Open Scope N_scope.

Definition w32 (x : N) : N := N.land x 0xFFFFFFFF.
Definition rotr (n x : N) : N := w32 (N.lor (N.shiftr x n) (N.shiftl x (32 - n))).
Definition Ch (x y z : N) : N := N.lxor (N.land x y) (N.land (N.lxor x 0xFFFFFFFF) z).
Definition Maj (x y z : N) : N := N.lxor (N.lxor (N.land x y) (N.land x z)) (N.land y z).
Definition Sigma0 (x : N) : N := N.lxor (N.lxor (rotr 2 x) (rotr 13 x)) (rotr 22 x).
Definition Sigma1 (x : N) : N := N.lxor (N.lxor (rotr 6 x) (rotr 11 x)) (rotr 25 x).
Definition sigma0 (x : N) : N := N.lxor (N.lxor (rotr 7 x) (rotr 18 x)) (N.shiftr x 3).
Definition sigma1 (x : N) : N := N.lxor (N.lxor (rotr 17 x) (rotr 19 x)) (N.shiftr x 10).

(** The first 64 primes. *)
Definition is_prime (n : N) : bool :=
  (2 <=? n) && forallb (fun d => negb (n mod N.of_nat d =? 0)) (seq 2 (N.to_nat n - 2)).

Definition primes : list N :=
  List.filter is_prime (map N.of_nat (seq 2 310)).

(** The integer cube root, bit by bit from bit [bits - 1] down. *)
Fixpoint cube_root (bits : nat) (x r : N) : N :=
  match bits with
  | O => r
  | S b =>
      let r' := r + N.shiftl 1 (N.of_nat b) in
      cube_root b x (if r' * r' * r' <=? x then r' else r)
  end.

(** The round constants: the first 32 bits of the fractional parts of the
    cube roots of the primes. *)
Definition K : list N :=
  Eval vm_compute in map (fun p => w32 (cube_root 36 (N.shiftl p 96) 0)) primes.

Definition state : Type := (N * N * N * N * N * N * N * N)%type.

(** The initial hash value: the first 32 bits of the fractional parts of the
    square roots of the first eight primes. *)
Definition root32 (p : N) : N := w32 (N.sqrt (N.shiftl p 64)).

Definition H0 : state :=
  Eval vm_compute in
    (root32 2, root32 3, root32 5, root32 7, root32 11, root32 13, root32 17, root32 19).

(** Message padding: a one bit, zeros up to 56 modulo 64, the bit length
    on eight bytes. *)
Definition be_bytes (count : nat) (x : N) : list N :=
  map (fun i => N.land (N.shiftr x (8 * N.of_nat i)) 255) (rev (seq 0 count)).

Definition pad (msg : list N) : list N :=
  let len := N.of_nat (length msg) in
  let zeros := N.to_nat ((119 - len mod 64) mod 64) in
  msg ++ [128] ++ repeat 0 zeros ++ be_bytes 8 (8 * len).

Fixpoint words_of (l : list N) : list N :=
  match l with
  | a :: b :: c :: d :: r => (((a * 256 + b) * 256 + c) * 256 + d) :: words_of r
  | _ => []
  end.

(** The message schedule, newest word first. *)
Fixpoint extend (n : nat) (w : list N) : list N :=
  match n with
  | O => w
  | S k =>
      let word :=
        w32 (sigma1 (nth 1 w 0) + nth 6 w 0 + sigma0 (nth 14 w 0) + nth 15 w 0) in
      extend k (word :: w)
  end.

Definition round (s : state) (kw : N * N) : state :=
  let '(a, b, c, d, e, f, g, h) := s in
  let t1 := h + Sigma1 e + Ch e f g + fst kw + snd kw in
  let t2 := Sigma0 a + Maj a b c in
  (w32 (t1 + t2), a, b, c, w32 (d + t1), e, f, g).

Definition compress (s : state) (block : list N) : state :=
  let w := rev (extend 48 (rev (words_of block))) in
  let '(a, b, c, d, e, f, g, h) := fold_left round (combine K w) s in
  let '(a0, b0, c0, d0, e0, f0, g0, h0) := s in
  (w32 (a0 + a), w32 (b0 + b), w32 (c0 + c), w32 (d0 + d),
   w32 (e0 + e), w32 (f0 + f), w32 (g0 + g), w32 (h0 + h)).

Fixpoint blocks (fuel : nat) (l : list N) (s : state) : state :=
  match fuel, l with
  | S k, _ :: _ => blocks k (skipn 64 l) (compress s (firstn 64 l))
  | _, _ => s
  end.

Definition to_byte (x : N) : byte :=
  match Byte.of_N x with Some b => b | None => x00 end.

Definition word_bytes (x : N) : list byte := map to_byte (be_bytes 4 x).

Definition digest (msg : list byte) : list byte :=
  let p := pad (map Byte.to_N msg) in
  let '(a, b, c, d, e, f, g, h) := blocks (length p) p H0 in
  word_bytes a ++ word_bytes b ++ word_bytes c ++ word_bytes d ++
  word_bytes e ++ word_bytes f ++ word_bytes g ++ word_bytes h.

End SHA256.

(** *** Versions: the final, pre-, post- and development releases of PEP 440
    in their normal form, [N(.N)*[{a|b|rc}N][.postN][.devN]] *)

Module Pep440.

Local Open Scope N_scope.

Inductive pre_tag : Type := PreA | PreB | PreRC.

Record t : Type := mk {
  release : list N;
  pre : option (pre_tag * N);
  post : option N;
  dev : option N;
}.

Definition digit_value (c : ascii) : option N :=
  let n := N_of_ascii c in
  if (48 <=? n) && (n <=? 57) then Some (n - 48) else None.

(** Leading decimal digits of [s] and what follows them. *)
Fixpoint read_digits (s : string) (acc : option N) : option N * string :=
  match s with
  | EmptyString => (acc, EmptyString)
  | String c r =>
      match digit_value c with
      | Some d => read_digits r (Some (10 * default 0 acc + d))
      | None => (acc, s)
      end
  end.

Definition read_nat (s : string) : option (N * string) :=
  match read_digits s None with
  | (Some n, r) => Some (n, r)
  | (None, _) => None
  end.

(** [tag ++ digits], nothing behind *)
Definition tagged (tag s : string) : option N :=
  if Py.startswith s tag then
    match read_nat (Py.drop_chars (String.length tag) s) with
    | Some (n, EmptyString) => Some n
    | _ => None
    end
  else None.

Inductive segment : Type :=
  | Num (n : N)
  | NumPre (n : N) (tag : pre_tag) (m : N)
  | Post (n : N)
  | Dev (n : N)
  | Bad.

Definition classify (tok : string) : segment :=
  match read_nat tok with
  | Some (n, EmptyString) => Num n
  | Some (n, r) =>
      match tagged "rc" r, tagged "a" r, tagged "b" r with
      | Some m, _, _ => NumPre n PreRC m
      | _, Some m, _ => NumPre n PreA m
      | _, _, Some m => NumPre n PreB m
      | _, _, _ => Bad
      end
  | None =>
      match tagged "post" tok, tagged "dev" tok with
      | Some n, _ => Post n
      | _, Some n => Dev n
      | _, _ => Bad
      end
  end.

(** What may follow the release numbers. *)
Definition suffix (segs : list segment) : option (option N * option N) :=
  match segs with
  | [] => Some (None, None)
  | [Post p] => Some (Some p, None)
  | [Dev d] => Some (None, Some d)
  | [Post p; Dev d] => Some (Some p, Some d)
  | _ => None
  end.

Fixpoint assemble (segs : list segment) (rel : list N) : option t :=
  match segs with
  | Num n :: rest =>
      match rest with
      | Num _ :: _ | NumPre _ _ _ :: _ => assemble rest (rel ++ [n])
      | _ => match suffix rest with
             | Some (p, d) => Some (mk (rel ++ [n]) None p d)
             | None => None
             end
      end
  | NumPre n tag m :: rest =>
      match suffix rest with
      | Some (p, d) => Some (mk (rel ++ [n]) (Some (tag, m)) p d)
      | None => None
      end
  | _ => None
  end.

Definition parse (s : string) : option t :=
  assemble (map classify (Py.split "." s)) [].

(** The comparison key of [packaging]: the release without its trailing
    zeros, then the pre-, post- and development parts with their infinities.
    The key is laid out as one list compared lexicographically: release
    numbers are shifted by one and closed by 0, so that a release that is a
    prefix of another comes first. *)
Fixpoint strip_zeros (l : list N) : list N :=
  match l with
  | [] => []
  | x :: r =>
      match strip_zeros r with
      | [] => if x =? 0 then [] else [x]
      | r' => x :: r'
      end
  end.

Definition tag_rank (tag : pre_tag) : N :=
  match tag with PreA => 0 | PreB => 1 | PreRC => 2 end.

Definition key (v : t) : list N :=
  map N.succ (strip_zeros (release v)) ++ [0] ++
  match pre v, post v, dev v with
  | None, None, Some _ => [0; 0; 0]
  | None, _, _ => [2; 0; 0]
  | Some (tag, n), _, _ => [1; tag_rank tag; n]
  end ++
  match post v with None => [0; 0] | Some n => [1; n] end ++
  match dev v with Some n => [0; n] | None => [1; 0] end.

Fixpoint list_ltb (a b : list N) : bool :=
  match a, b with
  | _, [] => false
  | [], _ :: _ => true
  | x :: a', y :: b' =>
      if x <? y then true else if y <? x then false else list_ltb a' b'
  end.

Definition lt (a b : t) : bool := list_ltb (key a) (key b).

End Pep440.

(** *** URLs with a scheme and a host *)

Module Url.

(** The text before the first character satisfying [stop], and the rest. *)
Fixpoint span_until (stop : ascii -> bool) (s : string) : string * string :=
  match s with
  | EmptyString => (EmptyString, EmptyString)
  | String c r =>
      if stop c then (EmptyString, s)
      else let '(a, b) := span_until stop r in (String c a, b)
  end.

Definition one_of (cs : string) (c : ascii) : bool := Py.contains c cs.

(** [scheme://rest] gives [Some (scheme, rest)]. *)
Definition split_scheme (u : string) : option (string * string) :=
  let '(scheme, r) := span_until (one_of ":/?#") u in
  if Py.startswith r "://" && negb (String.eqb scheme EmptyString)
  then Some (scheme, Py.drop_chars 3 r) else None.

(** [urlparse(u).path]: no scheme, host, query or fragment, and no
    parameters on the last segment. *)
Definition path (u : string) : string :=
  let tail := match split_scheme u with
              | Some (_, r) => snd (span_until (one_of "/?#") r)
              | None => u
              end in
  let p := fst (span_until (one_of "?#") tail) in
  let i := Z.to_nat (Py.rfind "/" p + 1) in
  Py.take_chars i p +:+ fst (span_until (one_of ";") (Py.drop_chars i p)).

(** [urljoin(base, ref)] for a reference that is a full URL, an absolute
    path or a relative path without dot segments. *)
Definition join (base : string) (ref : option string) : string :=
  match ref with
  | None | Some EmptyString => base
  | Some r =>
      match split_scheme r, split_scheme base with
      | Some _, _ => r
      | None, Some (scheme, rest) =>
          let '(host, tail) := span_until (one_of "/?#") rest in
          let p := fst (span_until (one_of "?#") tail) in
          if Py.startswith r "/" then scheme +:+ "://" +:+ host +:+ r
          else if String.eqb p EmptyString then scheme +:+ "://" +:+ host +:+ "/" +:+ r
          else scheme +:+ "://" +:+ host +:+
               Py.take_chars (Z.to_nat (Py.rfind "/" p + 1)) p +:+ r
      | None, None => r
      end
  end.

End Url.

(** *** A site: index pages, files and an installer process *)

Module Site.

Definition page_main : string :=
  "<html><body><a href='https://pip.pypa.io/' rel='homepage'>home</a><a rel='internal' href='pip-1.0.0-py3-none-any.whl'>pip-1.0.0</a><a href='/packages/pip-2.0.0-py3-none-any.whl#md5=0a' rel='internal'>pip-2.0.0</a><a rel='internal' href='https://files.example/packages/pip-1.5.0rc1-py3-none-any.whl'>pip-1.5.0rc1</a><a rel='internal' href='https://mirror.example/pip-2.0.0-py3-none-any.whl'>pip-2.0.0</a><a rel='internal' href='pip-1.0.0.tar.gz'>sdist</a><a>bare</a><a rel='internal'>nowhere</a><a rel='INTERNAL' href='pip-3.0-py3-none-any.whl'>x</a><A REL='internal' HREF='pip-0.1.tar.gz' href>dup</A></body></html>".

Definition page_sdist : string :=
  "<a rel='internal' href='pip-1.0.0.tar.gz'>sdist</a>".

Definition page_odd : string :=
  "<a rel='internal' href='pip-zzz-py3-none-any.whl'>odd</a>".

Definition page_flat : string :=
  "<a rel='internal' href='pip.whl'>flat</a>".

Definition page_mixed : string :=
  "<a rel='internal' href='pip-1.0.0-py3-none-any.whl'>ok</a><a rel='internal' href='pip.whl'>flat</a>".

(** The start tags of the pages above, as [html.parser] reports them. *)
Definition events_main : list (string * attrs_t) :=
  [("html", []);
   ("body", []);
   ("a", [("href", Some "https://pip.pypa.io/"); ("rel", Some "homepage")]);
   ("a", [("rel", Some "internal"); ("href", Some "pip-1.0.0-py3-none-any.whl")]);
   ("a", [("href", Some "/packages/pip-2.0.0-py3-none-any.whl#md5=0a"); ("rel", Some "internal")]);
   ("a", [("rel", Some "internal");
          ("href", Some "https://files.example/packages/pip-1.5.0rc1-py3-none-any.whl")]);
   ("a", [("rel", Some "internal"); ("href", Some "https://mirror.example/pip-2.0.0-py3-none-any.whl")]);
   ("a", [("rel", Some "internal"); ("href", Some "pip-1.0.0.tar.gz")]);
   ("a", []);
   ("a", [("rel", Some "internal")]);
   ("a", [("rel", Some "INTERNAL"); ("href", Some "pip-3.0-py3-none-any.whl")]);
   ("a", [("rel", Some "internal"); ("href", Some "pip-0.1.tar.gz"); ("href", None)])].

Definition starttags (data : string) : list (string * attrs_t) :=
  if String.eqb data page_main then events_main
  else if String.eqb data page_sdist then
    [("a", [("rel", Some "internal"); ("href", Some "pip-1.0.0.tar.gz")])]
  else if String.eqb data page_odd then
    [("a", [("rel", Some "internal"); ("href", Some "pip-zzz-py3-none-any.whl")])]
  else if String.eqb data page_flat then
    [("a", [("rel", Some "internal"); ("href", Some "pip.whl")])]
  else if String.eqb data page_mixed then
    [("a", [("rel", Some "internal"); ("href", Some "pip-1.0.0-py3-none-any.whl")]);
     ("a", [("rel", Some "internal"); ("href", Some "pip.whl")])]
  else [].

Definition html (status : Z) (page : string) : option Response :=
  Some {| status_code := status; text := page; content := Py.encode_utf8 page |}.

Definition wheel_bytes : list byte := Py.encode_utf8 "PK: pip 2.0.0".

Definition get (u : string) : option Response :=
  if String.eqb u "https://pypi.python.org/simple/pip/" then html 200 page_main
  else if String.eqb u "https://index.example/sdist/pip/" then html 200 page_sdist
  else if String.eqb u "https://index.example/odd/pip/" then html 200 page_odd
  else if String.eqb u "https://index.example/flat/pip/" then html 200 page_flat
  else if String.eqb u "https://index.example/mixed/pip/" then html 200 page_mixed
  else if String.eqb u "https://index.example/missing/pip/" then html 404 "Not Found"
  else if String.eqb u "https://pypi.python.org/packages/pip-2.0.0-py3-none-any.whl#md5=0a"
  then Some {| status_code := 200; text := EmptyString; content := wheel_bytes |}
  else if String.eqb u "https://files.example/gone/pip-9.0-py3-none-any.whl"
  then html 404 "Not Found"
  else if String.eqb u "https://files.example/stale/pip-3.0-py3-none-any.whl"
  then Some {| status_code := 304; text := EmptyString; content := [] |}
  else None.

(** The interpreter of the environment [/envs/ok] installs and exits with
    0, the one of [/envs/broken] exits with 1, any other is missing. *)
Definition run (args : list string) (env : list (string * string)) (f : FS)
  : outcome Z * FS :=
  match args with
  | exe :: _ =>
      if String.eqb exe "/envs/ok/bin/python" then (Return 0, f)
      else if String.eqb exe "/envs/broken/bin/python" then (Return 1, f)
      else (Raise FileNotFoundError, f)
  | [] => (Raise IndexError, f)
  end.

(** The environment builder creates the directory of the environment. *)
Definition builder (target : string) (f : FS) : outcome unit * FS :=
  (Return tt, {| files := files f; dirs := {[target]} ∪ dirs f |}).

End Site.

Definition site : Platform := {|
  Version := Pep440.t;
  version_parse := Pep440.parse;
  version_lt := Pep440.lt;
  urljoin := Url.join;
  urlparse_path := Url.path;
  html_starttags := Site.starttags;
  sha256 := SHA256.digest;
  http_get := fun _ u => Site.get u;
  run_process := Site.run;
  builder_create := Site.builder;
|}.

(** An empty cache, nothing requested, no session, no process. *)
Definition world0 : World :=
  {| fs := {| files := ∅; dirs := {["/cache"]} |}; gets := []; sessions := []; procs := [] |}.

Definition installer0 (env : string) : PipInstaller :=
  {| environment := env; cache_dir := Some "/cache"; session := 0%nat |}.

(** The response with the main index page, and the candidates of its four
    wheel links. *)
Definition response_main : Response :=
  {| status_code := 200; text := Site.page_main;
     content := Py.encode_utf8 Site.page_main |}.

Definition final (rel : list N) : Pep440.t := Pep440.mk rel None None None.

Definition candidates_main : list (Candidate Pep440.t) :=
  [ {| version := final [1; 0; 0]%N;
       url := "https://pypi.python.org/simple/pip/pip-1.0.0-py3-none-any.whl";
       filename := "pip-1.0.0-py3-none-any.whl" |};
    {| version := final [2; 0; 0]%N;
       url := "https://pypi.python.org/packages/pip-2.0.0-py3-none-any.whl#md5=0a";
       filename := "pip-2.0.0-py3-none-any.whl" |};
    {| version := Pep440.mk [1; 5; 0]%N (Some (Pep440.PreRC, 1%N)) None None;
       url := "https://files.example/packages/pip-1.5.0rc1-py3-none-any.whl";
       filename := "pip-1.5.0rc1-py3-none-any.whl" |};
    {| version := final [2; 0; 0]%N;
       url := "https://mirror.example/pip-2.0.0-py3-none-any.whl";
       filename := "pip-2.0.0-py3-none-any.whl" |} ].

(** The wheel of pip 2.0.0 that the main index page lists first. *)
Definition pip_2_0_0 : Candidate Pep440.t :=
  {| version := final [2; 0; 0]%N;
     url := "https://pypi.python.org/packages/pip-2.0.0-py3-none-any.whl#md5=0a";
     filename := "pip-2.0.0-py3-none-any.whl" |}.

(** Two files the site does not serve with a 200: one is gone, for the other
    the server answers 304. *)
Definition pip_gone : Candidate Pep440.t :=
  {| version := final [9; 0]%N;
     url := "https://files.example/gone/pip-9.0-py3-none-any.whl";
     filename := "pip-9.0-py3-none-any.whl" |}.

Definition pip_stale : Candidate Pep440.t :=
  {| version := final [3; 0]%N;
     url := "https://files.example/stale/pip-3.0-py3-none-any.whl";
     filename := "pip-3.0-py3-none-any.whl" |}.

(** Where the cache of [installer0] keeps the wheel of pip 2.0.0. *)
Definition path_2_0_0 : string :=
  "/cache/8dac51446613118eda0e9e3401ac21b6fa9aa817626d846980c0c5e8e3fa545b/pip-2.0.0-py3-none-any.whl".

(** The world after the first download of that wheel. *)
Definition world1 : World :=
  snd (download (platform := site) (installer0 "/envs/ok") pip_2_0_0 world0).

(** A second installer, with a cache of its own. *)
Definition installer1 : PipInstaller :=
  {| environment := "/envs/ok"; cache_dir := Some "/srv/cache"; session := 1%nat |}.

(** ** [pvr/cli.py]: the group callback and the commands *)

(** [q] is [path] or lies below it. *)
Definition below (path q : string) : bool :=
  String.eqb q path || Py.startswith q (path +:+ "/").

Module shutil.

(** [shutil.rmtree(path)]: the directory [path] and everything below it. *)
Definition rmtree (path : string) (f : FS) : outcome FS :=
  if bool_decide (is_Some (files f !! path)) then Raise NotADirectoryError
  else if negb (bool_decide (path ∈ dirs f)) then Raise FileNotFoundError
  else Return {| files := filter (fun kv => below path (fst kv) = false) (files f);
                 dirs := filter (fun q => below path q = false) (dirs f) |}.

End shutil.

(** The text before the first [/] of [s], and the rest from that [/] on. *)
Fixpoint until_slash (s : string) : string * string :=
  match s with
  | EmptyString => (EmptyString, EmptyString)
  | String c r =>
      if Ascii.eqb c "/" then (EmptyString, s)
      else let '(a, b) := until_slash r in (String c a, b)
  end.

(** [os.path.expanduser(path)] for the user whose home directory is [home];
    a path for another user ([~name/...]) is left as it is. *)
Definition expanduser (home path : string) : string :=
  match path with
  | String "~" r =>
      let '(user, rest) := until_slash r in
      if String.eqb user EmptyString then
        let expanded := Py.rstrip "/" home +:+ rest in
        if String.eqb expanded EmptyString then "/" else expanded
      else path
  | _ => path
  end.

(** [ctx.obj]: a dictionary; the entry [dirs] is the dictionary of the
    directories of pvr. *)
Abbreviation ctx_obj := (gmap string (gmap string string)).

(** [cli(ctx)], the callback of the command group: [user_cache_dir] is what
    [appdirs] reports for pvr. *)
Definition cli (user_cache_dir home : string) (obj : option ctx_obj) : ctx_obj :=
  (* Ensure that our context object is initialized to an empty dictionary. *)
  let obj0 := match obj with None => ∅ | Some o => o end in
  (* Compute the various directories that pvr will require. *)
  <["dirs" := <["environments" := expanduser home "~/.pvr/envs"]>
                (<["cache" := posixpath.join user_cache_dir []]> ∅)]> obj0.

(** [ctx.obj["dirs"][key]] *)
Definition ctx_dir (obj : ctx_obj) (key : string) : outcome string :=
  match obj !! "dirs" with
  | None => Raise (OtherError "KeyError")
  | Some d =>
      match d !! key with
      | None => Raise (OtherError "KeyError")
      | Some v => Return v
      end
  end.

(** What [os.execvpe(file, args, env)] is called with; the call replaces the
    process. *)
Record exec_request : Type := mkExec {
  exec_file : string;
  exec_args : list string;
  exec_env : gmap string string;
}.

(** [os.pathsep] and [os.defpath] *)
Definition pathsep : string := ":".
Definition defpath : string := "/bin:/usr/bin".

Section Commands.

Context `{platform : Platform}.

(** [create(ctx, name)], reading the directories from [ctx.obj]. *)
Definition create_cmd (obj : ctx_obj) (name : string) : M unit :=
  (* Compute the target path for this environment. *)
  let! environments := lift (ctx_dir obj "environments") in
  let target := posixpath.join environments [name] in
  (* Determine if this environment already exists. *)
  let! present := os_path_exists target in
  if present then raise ClickException
  else
    (* Create the new virtual environment *)
    let! _ := (fun w => let '(r, f') := builder_create target (fs w) in (r, set_fs f' w)) in
    (* Install pip into the virtual environment. *)
    let! cache := lift (ctx_dir obj "cache") in
    with_installer (PipInstaller_init target (Some cache)) install.

End Commands.

(** [remove(ctx, name)] *)
Definition remove (obj : ctx_obj) (name : string) : M unit :=
  (* Compute the target path for this environment. *)
  let! environments := lift (ctx_dir obj "environments") in
  let target := posixpath.join environments [name] in
  (* Remove the directory *)
  on_fs (shutil.rmtree target).

(** [exec_(ctx, name, command)] with [os.environ] given by [environ]: the
    request handed to [os.execvpe], unless an exception comes first. *)
Definition exec_ (obj : ctx_obj) (name : string) (command : list string)
  (environ : gmap string string) : M exec_request :=
  (* Compute the target path and bin dir for this environment. *)
  let! environments := lift (ctx_dir obj "environments") in
  let target := posixpath.join environments [name] in
  let bin_dir := posixpath.join target ["bin"] in
  (* If our target doesn't exist, then we need to bomb out *)
  let! present := os_path_exists target in
  if negb present then raise ClickException
  else
    (* Compute what would be our $PATH directory. *)
    let path := bin_dir +:+ pathsep +:+ default defpath (environ !! "PATH") in
    (* Duplicate our environment, and modify our $PATH environment variable *)
    let env := <["PATH" := path]> environ in
    (* Run our command *)
    match command !! 0%nat with
    | None => raise IndexError
    | Some file => ret {| exec_file := file; exec_args := command; exec_env := env |}
    end.

(** The context of a user with home directory [/home/u]. *)
Definition ctx0 : ctx_obj := cli "/home/u/.cache/pvr" "/home/u" None.

(** A file system with two environments and a file beside them. *)
Definition fs_envs : FS :=
  {| files := {[ "/home/u/.pvr/envs/a/bin/python" := Py.encode_utf8 "#!";
                 "/home/u/.pvr/envs/ab/pyvenv.cfg" := Py.encode_utf8 "home";
                 "/home/u/notes" := Py.encode_utf8 "keep" ]};
     dirs := {[ "/home/u"; "/home/u/.pvr"; "/home/u/.pvr/envs";
                "/home/u/.pvr/envs/a"; "/home/u/.pvr/envs/a/bin";
                "/home/u/.pvr/envs/ab" ]} |}.

Definition world_envs : World :=
  {| fs := fs_envs; gets := []; sessions := []; procs := [] |}.

(** The site when the network is down: no request gets a response. *)
Definition site_offline : Platform := {|
  Version := Pep440.t;
  version_parse := Pep440.parse;
  version_lt := Pep440.lt;
  urljoin := Url.join;
  urlparse_path := Url.path;
  html_starttags := Site.starttags;
  sha256 := SHA256.digest;
  http_get := fun _ _ => None;
  run_process := Site.run;
  builder_create := Site.builder;
|}.

(** An installer built as [PipInstaller(environment)], without a cache. *)
Definition installer_nocache : PipInstaller :=
  {| environment := "/envs/ok"; cache_dir := None; session := 0%nat |}.

(** The variables of a process. *)
Definition environ0 : gmap string string :=
  {[ "PATH" := "/usr/local/bin:/usr/bin"; "LANG" := "C" ]}.

(** A candidate whose file name is an absolute path, and a world in which
    a file has that name. *)
Definition pip_absolute : Candidate Pep440.t :=
  {| version := final [1; 0]%N;
     url := "https://files.example/packages/pip-1.0-py3-none-any.whl";
     filename := "/srv/pip-1.0-py3-none-any.whl" |}.

Definition world_absolute : World :=
  {| fs := {| files := {[ "/srv/pip-1.0-py3-none-any.whl" := Py.encode_utf8 "PK" ]};
              dirs := {[ "/cache"; "/srv" ]} |};
     gets := []; sessions := []; procs := [] |}.

(** ** What the specification says the link extractor produces *)

Section Specification.

Context `{platform : Platform}.

(** An anchor element with a [rel] attribute whose value is [internal]. *)
Definition is_internal_anchor (ev : string * attrs_t) : bool :=
  String.eqb (fst ev) "a"
  && existsb (fun av => String.eqb (fst av) "rel" && bool_decide (snd av = Some "internal"))
       (snd ev).

(** The values of the [href] attributes of a start tag, in their order. *)
Definition href_values (attrs : attrs_t) : list (option string) :=
  map snd (List.filter (fun av => String.eqb (fst av) "href") attrs).

(** The links of a document: for every internal anchor, in document order,
    its [href] values joined to the base URL. *)
Definition extracted (base : string) (events : list (string * attrs_t)) : list string :=
  flat_map (fun ev => if is_internal_anchor ev
                      then map (urljoin base) (href_values (snd ev)) else []) events.

(** The file name of a link as [find] computes it. *)
Definition link_filename (link : string) : string :=
  posixpath.basename (urlparse_path link).

Definition is_wheel (link : string) : bool := Py.endswith (link_filename link) ".whl".

(** A link is eligible, in the words of the specification, when its file
    name has the wheel suffix and its second hyphen-delimited token parses
    as a version. *)
Definition eligible (link : string) : bool :=
  is_wheel link
  && match Py.split "-" (link_filename link) !! 1%nat with
     | Some part => bool_decide (is_Some (version_parse part))
     | None => false
     end.

(** One round of the loop of [find], started from an empty list. *)
Definition candidate_step (link : string) : outcome (option (Candidate Version)) :=
  if negb (is_wheel link) then Return None
  else match Py.split "-" (link_filename link) !! 1%nat with
       | None => Raise IndexError
       | Some part =>
           match version_parse part with
           | None => Raise (InvalidVersion part)
           | Some v => Return (Some {| version := v; url := link;
                                       filename := link_filename link |})
           end
       end.

(** What [find] knows of a candidate it has built. *)
Definition built_from_link (c : Candidate Version) : Prop :=
  filename c = link_filename (url c)
  /\ Py.endswith (filename c) ".whl" = true
  /\ exists part, Py.split "-" (filename c) !! 1%nat = Some part
                  /\ version_parse part = Some (version c).

(** The path [download] works with. *)
Definition cache_path (root : string) (c : Candidate Version) : string :=
  posixpath.join root [hashed c; filename c].

(** The command line and the environment of the installer process for the
    file at [path]. *)
Definition installer_argv (self : PipInstaller) (path : string) : list string :=
  [posixpath.join (environment self) ["bin"; "python"]; "-c"; pip_command path].

Definition installer_env (path : string) : list (string * string) :=
  [("PYTHONPATH", path)].

(** The response passes [raise_for_status]. *)
Definition status_ok (resp : Response) : Prop :=
  ~ (400 <= status_code resp < 600).

(** [hashlib.sha256(...).digest()] has 32 bytes. *)
Definition digest_size_32 : Prop := forall data, length (sha256 data) = 32%nat.

(** The element that a stable ascending sort puts last: the latest of the
    greatest elements. *)
Definition later_max (acc : option (Candidate Version)) (y : Candidate Version) : option (Candidate Version) :=
  match acc with
  | None => Some y
  | Some b => Some (if key_lt y b then b else y)
  end.

End Specification.

(** The order [<] on versions is a strict weak order: irreflexive,
    transitive, and with a transitive [>=]. *)
Record strict_weak_order {A : Type} (lt : A -> A -> bool) : Prop := {
  swo_irrefl : forall a, lt a a = false;
  swo_trans : forall a b c, lt a b = true -> lt b c = true -> lt a c = true;
  swo_incomp : forall a b c, lt a b = false -> lt b c = false -> lt a c = false;
}.

(** ** Properties of the link extractor *)

Section LinkExtractorProperties.

Context `{platform : Platform}.

Lemma rel_internal_loop_existsb (attrs : attrs_t) :
  rel_internal_loop attrs
  = existsb (fun av => String.eqb (fst av) "rel" && bool_decide (snd av = Some "internal")) attrs.
Proof.
  induction attrs as [|[attr value] rest IH]; simpl; [reflexivity|].
  destruct (String.eqb attr "rel" && bool_decide (value = Some "internal")); simpl; auto.
Qed.

Lemma rel_internal_loop_In (attrs : attrs_t) :
  rel_internal_loop attrs = true <-> In ("rel", Some "internal") attrs.
Proof.
  induction attrs as [|[attr value] rest IH]; simpl.
  - split; [discriminate | tauto].
  - destruct (String.eqb attr "rel") eqn:Ea; simpl.
    + apply String.eqb_eq in Ea. subst attr.
      destruct (bool_decide (value = Some "internal")) eqn:Ev.
      * apply bool_decide_eq_true in Ev. subst. split; auto.
      * apply bool_decide_eq_false in Ev. rewrite IH.
        split; [tauto | intros [E | ?]; [congruence | assumption]].
    + apply String.eqb_neq in Ea. rewrite IH.
      split; [tauto | intros [E | ?]; [congruence | assumption]].
Qed.

Lemma href_loop_base (self : LinkExtractor) (attrs : attrs_t) :
  base_url (href_loop self attrs) = base_url self.
Proof.
  revert self. induction attrs as [|[attr value] rest IH]; intros self; simpl; [reflexivity|].
  rewrite IH. destruct (String.eqb attr "href"); reflexivity.
Qed.

Lemma href_loop_links (self : LinkExtractor) (attrs : attrs_t) :
  links (href_loop self attrs)
  = links self ++ map (urljoin (base_url self)) (href_values attrs).
Proof.
  revert self. induction attrs as [|[attr value] rest IH]; intros self; simpl.
  - now rewrite app_nil_r.
  - rewrite IH. unfold href_values. simpl.
    destruct (String.eqb attr "href"); simpl; [|reflexivity].
    now rewrite <- app_assoc.
Qed.

Lemma href_loop_no_href (self : LinkExtractor) (attrs : attrs_t) :
  (forall v, ~ In ("href", v) attrs) -> href_loop self attrs = self.
Proof.
  revert self. induction attrs as [|[attr value] rest IH]; intros self Hno; simpl; [reflexivity|].
  destruct (String.eqb attr "href") eqn:Ea.
  - apply String.eqb_eq in Ea. subst. exfalso. apply (Hno value). now left.
  - apply IH. intros v Hv. apply (Hno v). now right.
Qed.

Lemma handle_starttag_base (self : LinkExtractor) tag attrs :
  base_url (handle_starttag self tag attrs) = base_url self.
Proof.
  unfold handle_starttag.
  repeat match goal with |- context [if ?b then _ else _] => destruct b end;
    auto using href_loop_base.
Qed.

Lemma handle_starttag_links (self : LinkExtractor) tag attrs :
  links (handle_starttag self tag attrs)
  = links self ++ extracted (base_url self) [(tag, attrs)].
Proof.
  unfold handle_starttag, extracted, is_internal_anchor. simpl.
  rewrite <- rel_internal_loop_existsb, !app_nil_r.
  destruct (String.eqb tag "a"); simpl; [|now rewrite app_nil_r].
  destruct (bool_decide (attrs = [])) eqn:Ee.
  - apply bool_decide_eq_true in Ee. subst. simpl. now rewrite app_nil_r.
  - destruct (rel_internal_loop attrs); simpl.
    + apply href_loop_links.
    + now rewrite app_nil_r.
Qed.

Lemma extracted_app base (e1 e2 : list (string * attrs_t)) :
  extracted base (e1 ++ e2) = extracted base e1 ++ extracted base e2.
Proof. unfold extracted. apply flat_map_app. Qed.

Lemma dispatch_links (self : LinkExtractor) events :
  links (dispatch self events) = links self ++ extracted (base_url self) events
  /\ base_url (dispatch self events) = base_url self.
Proof.
  revert self. induction events as [|[tag attrs] rest IH]; intros self.
  - simpl. now rewrite app_nil_r.
  - change (dispatch self ((tag, attrs) :: rest))
      with (dispatch (handle_starttag self tag attrs) rest).
    destruct (IH (handle_starttag self tag attrs)) as [-> ->].
    rewrite handle_starttag_links, handle_starttag_base, <- app_assoc.
    split; [|reflexivity]. f_equal.
    change ((tag, attrs) :: rest) with ([(tag, attrs)] ++ rest).
    now rewrite extracted_app.
Qed.

(** C3. The links collected from a document are exactly the [href] values
    of the anchors that carry a [rel] attribute equal to [internal], each
    joined to the base URL, in document order; a start tag that is not an
    anchor, has no attributes, has no [rel] equal to [internal] or has no
    [href] leaves the extractor as it was. *)
Theorem link_extractor_exact (base data : string) :
  links (feed (LinkExtractor_init base) data) = extracted base (html_starttags data)
  /\ forall (self : LinkExtractor) (tag : string) (attrs : attrs_t),
       tag <> "a" \/ attrs = [] \/ ~ In ("rel", Some "internal") attrs
       \/ (forall v, ~ In ("href", v) attrs) ->
       handle_starttag self tag attrs = self.
Proof.
  split.
  - unfold feed. now rewrite (proj1 (dispatch_links _ _)).
  - intros self tag attrs Hcase. unfold handle_starttag.
    destruct (String.eqb tag "a") eqn:Et; simpl; [|reflexivity].
    apply String.eqb_eq in Et.
    destruct (bool_decide (attrs = [])) eqn:Ee; [reflexivity|].
    apply bool_decide_eq_false in Ee.
    destruct (rel_internal_loop attrs) eqn:Er; simpl; [|reflexivity].
    apply rel_internal_loop_In in Er.
    destruct Hcase as [Hc | [Hc | [Hc | Hc]]]; try contradiction.
    now apply href_loop_no_href.
Qed.

End LinkExtractorProperties.

Lemma link_extractor_exact_witness :
  links (feed (platform := site)
           (LinkExtractor_init "https://pypi.python.org/simple/pip/") Site.page_main)
  = ["https://pypi.python.org/simple/pip/pip-1.0.0-py3-none-any.whl";
     "https://pypi.python.org/packages/pip-2.0.0-py3-none-any.whl#md5=0a";
     "https://files.example/packages/pip-1.5.0rc1-py3-none-any.whl";
     "https://mirror.example/pip-2.0.0-py3-none-any.whl";
     "https://pypi.python.org/simple/pip/pip-1.0.0.tar.gz";
     "https://pypi.python.org/simple/pip/pip-0.1.tar.gz";
     "https://pypi.python.org/simple/pip/"]
  /\ handle_starttag (platform := site)
       (LinkExtractor_init "https://pypi.python.org/simple/pip/")
       "a" [("rel", Some "internal")]
     = LinkExtractor_init "https://pypi.python.org/simple/pip/".
Proof.
  destruct (link_extractor_exact (platform := site)
              "https://pypi.python.org/simple/pip/" Site.page_main) as [Hlinks Hskip].
  split.
  - rewrite Hlinks. vm_compute. reflexivity.
  - apply Hskip. right. right. right. intros v [E | []]. discriminate E.
Defined.

(** ** Properties of [sorted] *)

Section SortedProperties.

Context `{platform : Platform}.
Hypothesis version_order : strict_weak_order version_lt.

Local Abbreviation ge_rel := (fun a b : (Candidate Version) => key_lt b a = false).

Lemma key_lt_asym a b : key_lt a b = true -> key_lt b a = false.
Proof.
  unfold key_lt. intros Hab.
  destruct (version_lt (version b) (version a)) eqn:Hba; [|reflexivity].
  pose proof (swo_trans _ version_order _ _ _ Hab Hba) as Haa.
  rewrite (swo_irrefl _ version_order) in Haa. discriminate.
Qed.

Lemma key_lt_trans a b c : key_lt a b = true -> key_lt b c = true -> key_lt a c = true.
Proof. unfold key_lt. apply (swo_trans _ version_order). Qed.

Lemma key_lt_incomp a b c : key_lt a b = false -> key_lt b c = false -> key_lt a c = false.
Proof. unfold key_lt. apply (swo_incomp _ version_order). Qed.

Lemma In_insert x z l : In z (insert x l) <-> z = x \/ In z l.
Proof.
  induction l as [|y r IH]; simpl.
  - intuition.
  - destruct (key_lt x y); simpl; [intuition|]. rewrite IH. intuition.
Qed.

Lemma insert_not_nil x l : insert x l <> [].
Proof. destruct l as [|y r]; simpl; [discriminate|]. destruct (key_lt x y); discriminate. Qed.

Lemma insert_sorted x l :
  StronglySorted ge_rel l -> StronglySorted ge_rel (insert x l).
Proof.
  induction 1 as [|y r Hr IH Hy]; simpl.
  - repeat constructor.
  - destruct (key_lt x y) eqn:Hxy.
    + constructor; [constructor; assumption|].
      constructor; [now apply key_lt_asym|].
      rewrite List.Forall_forall in Hy |- *. intros z Hz.
      destruct (key_lt z x) eqn:Hzx; [|reflexivity].
      rewrite <- (Hy z Hz). symmetry. now apply key_lt_trans with x.
    + constructor; [assumption|].
      rewrite List.Forall_forall in Hy |- *. intros z Hz.
      apply In_insert in Hz as [-> | Hz]; auto.
Qed.

(** The last element after an insertion: the newcomer, unless it is
    smaller than the old last element. *)
Lemma last_insert x l m :
  StronglySorted ge_rel l -> last l = Some m ->
  last (insert x l) = Some (if key_lt x m then m else x).
Proof.
  induction 1 as [|y r Hr IH Hy]; intros Hlast; [discriminate|].
  simpl. destruct r as [|y' r'].
  - simpl in Hlast. injection Hlast as <-. simpl.
    destruct (key_lt x y); reflexivity.
  - change (last (y :: y' :: r')) with (last (y' :: r')) in Hlast.
    destruct (key_lt x y) eqn:Hxy.
    + change (last (x :: y :: y' :: r')) with (last (y' :: r')). rewrite Hlast.
      assert (Hm : key_lt m y = false).
      { rewrite List.Forall_forall in Hy. apply Hy.
        apply list_elem_of_In. apply last_Some_elem_of. exact Hlast. }
      destruct (key_lt x m) eqn:Hxm; [reflexivity|].
      rewrite (key_lt_incomp _ _ _ Hxm Hm) in Hxy. discriminate.
    + specialize (IH Hlast).
      destruct (insert x (y' :: r')) as [|z zs] eqn:Hins.
      * now apply insert_not_nil in Hins.
      * exact IH.
Qed.

Lemma fold_insert_last l acc :
  StronglySorted ge_rel acc ->
  StronglySorted ge_rel (fold_left (fun a x => insert x a) l acc)
  /\ last (fold_left (fun a x => insert x a) l acc) = fold_left later_max l (last acc).
Proof.
  revert acc. induction l as [|x l IH]; intros acc Hacc; simpl; [auto|].
  destruct (IH (insert x acc) (insert_sorted x acc Hacc)) as [Hs Hl].
  split; [assumption|]. rewrite Hl. f_equal.
  destruct (last acc) as [m|] eqn:Hm.
  - now apply last_insert.
  - apply last_None in Hm. subst. reflexivity.
Qed.

Lemma head_rev {A} (l : list A) : rev l !! 0%nat = last l.
Proof.
  induction l as [|x l IH] using rev_ind; [reflexivity|].
  rewrite rev_app_distr, last_snoc. reflexivity.
Qed.

Lemma sorted_reverse_head l :
  sorted_reverse l !! 0%nat = fold_left later_max (rev l) None.
Proof.
  unfold sorted_reverse, sort. rewrite head_rev.
  apply (fold_insert_last (rev l) []). constructor.
Qed.

(** The selected candidate splits the list: strictly smaller versions in
    front of it, no greater version behind it. *)
Lemma later_max_rev_spec l :
  l <> [] ->
  exists before c after,
    fold_left later_max (rev l) None = Some c
    /\ l = before ++ c :: after
    /\ (forall c', In c' before -> key_lt c' c = true)
    /\ (forall c', In c' after -> key_lt c c' = false).
Proof.
  induction l as [|x l IH]; intros Hne; [congruence|].
  simpl rev. rewrite fold_left_app. simpl.
  destruct l as [|y l'].
  - simpl. exists [], x, []. repeat split; simpl; tauto.
  - destruct IH as (before & c & after & Hbest & Hsplit & Hbefore & Hafter); [discriminate|].
    rewrite Hbest. simpl.
    destruct (key_lt x c) eqn:Hxc.
    + exists (x :: before), c, after. repeat split; try assumption.
      * rewrite Hsplit. reflexivity.
      * intros c' [<- | Hc']; auto.
    + exists [], x, (y :: l'). repeat split; [intros c' [] |].
      intros c' Hc'. rewrite Hsplit in Hc'.
      apply in_app_or in Hc' as [Hc' | [<- | Hc']].
      * destruct (key_lt x c') eqn:Hxc'; [|reflexivity].
        rewrite (key_lt_trans _ _ _ Hxc' (Hbefore _ Hc')) in Hxc. discriminate.
      * assumption.
      * apply key_lt_incomp with c; auto.
Qed.

End SortedProperties.

(** ** Properties of [find] *)

Section FindProperties.

Context `{platform : Platform}.

Lemma split_not_nil sep s : Py.split sep s <> [].
Proof.
  destruct s as [|c r]; simpl; [discriminate|].
  destruct (Ascii.eqb c sep); [discriminate|].
  destruct (Py.split sep r); discriminate.
Qed.

(** [s.split(sep)[1]] raises exactly when [sep] does not occur in [s]. *)
Lemma split_second_none sep s :
  Py.split sep s !! 1%nat = None <-> Py.contains sep s = false.
Proof.
  induction s as [|c r IH]; simpl; [tauto|].
  destruct (Ascii.eqb c sep); simpl.
  - pose proof (split_not_nil sep r) as Hne.
    destruct (Py.split sep r); [congruence|]. simpl. split; discriminate.
  - pose proof (split_not_nil sep r) as Hne.
    destruct (Py.split sep r) as [|tok toks]; [congruence|]. exact IH.
Qed.

Lemma length_insert_candidate x l : length (insert x l) = S (length l).
Proof.
  induction l as [|y r IH]; simpl; [reflexivity|].
  destruct (key_lt x y); simpl; congruence.
Qed.

Lemma length_sort_acc l acc :
  length (fold_left (fun a x => insert x a) l acc) = (length l + length acc)%nat.
Proof.
  revert acc. induction l as [|x l IH]; intros acc; simpl; [reflexivity|].
  rewrite IH, length_insert_candidate. lia.
Qed.

Lemma length_sorted_reverse l : length (sorted_reverse l) = length l.
Proof.
  unfold sorted_reverse, sort.
  rewrite length_rev, length_sort_acc, length_rev. simpl. lia.
Qed.

Lemma sorted_reverse_head_some l :
  l <> [] -> exists c, sorted_reverse l !! 0%nat = Some c.
Proof.
  intros Hne. pose proof (length_sorted_reverse l) as Hlen.
  destruct (sorted_reverse l) as [|c r]; [|exists c; reflexivity].
  destruct l; [congruence | discriminate].
Qed.

Lemma candidates_loop_acc ls acc :
  candidates_loop ls acc
  = match candidates_loop ls [] with
    | Return cs => Return (acc ++ cs)
    | Raise e => Raise e
    end.
Proof.
  revert acc. induction ls as [|link rest IH]; intros acc; simpl.
  - now rewrite app_nil_r.
  - destruct (negb (Py.endswith (posixpath.basename (urlparse_path link)) ".whl")); [apply IH|].
    destruct (Py.split "-" (posixpath.basename (urlparse_path link)) !! 1%nat) as [part|];
      [|reflexivity].
    destruct (version_parse part) as [v|]; [|reflexivity].
    rewrite (IH (acc ++ _)), (IH [_]).
    destruct (candidates_loop rest []); [|reflexivity].
    now rewrite <- app_assoc.
Qed.

Lemma candidates_loop_cons link rest :
  candidates_loop (link :: rest) []
  = match candidate_step link with
    | Raise e => Raise e
    | Return None => candidates_loop rest []
    | Return (Some c) =>
        match candidates_loop rest [] with
        | Return cs => Return (c :: cs)
        | Raise e => Raise e
        end
    end.
Proof.
  unfold candidate_step, is_wheel, link_filename. simpl.
  destruct (negb (Py.endswith (posixpath.basename (urlparse_path link)) ".whl")); [reflexivity|].
  destruct (Py.split "-" (posixpath.basename (urlparse_path link)) !! 1%nat) as [part|];
    [|reflexivity].
  destruct (version_parse part) as [v|]; [|reflexivity].
  now rewrite candidates_loop_acc.
Qed.

Lemma candidate_step_some link c :
  candidate_step link = Return (Some c) ->
  url c = link /\ is_wheel link = true /\ built_from_link c.
Proof.
  unfold candidate_step, built_from_link.
  destruct (is_wheel link) eqn:Hw; simpl; [|discriminate].
  destruct (Py.split "-" (link_filename link) !! 1%nat) as [part|] eqn:Hs; [|discriminate].
  destruct (version_parse part) as [v|] eqn:Hv; [|discriminate].
  intros [= <-]. simpl. repeat split; try reflexivity; [exact Hw|].
  exists part. split; assumption.
Qed.

Lemma candidate_step_none link :
  candidate_step link = Return None <-> is_wheel link = false.
Proof.
  unfold candidate_step. destruct (is_wheel link); simpl.
  - split; [|discriminate]. destruct (Py.split "-" (link_filename link) !! 1%nat) as [part|];
      [destruct (version_parse part)|]; discriminate.
  - tauto.
Qed.

Lemma candidate_step_index_error link :
  candidate_step link = Raise IndexError
  <-> is_wheel link = true /\ Py.contains "-" (link_filename link) = false.
Proof.
  unfold candidate_step. rewrite <- split_second_none.
  destruct (is_wheel link); simpl.
  - destruct (Py.split "-" (link_filename link) !! 1%nat) as [part|].
    + destruct (version_parse part); split; try discriminate; intros [_ ?]; discriminate.
    + tauto.
  - split; [discriminate | intros [? _]; discriminate].
Qed.

(** The candidates are those of the wheel links, in the order of the links. *)
Lemma candidates_loop_return ls cs :
  candidates_loop ls [] = Return cs ->
  map url cs = List.filter is_wheel ls /\ Forall built_from_link cs.
Proof.
  revert cs. induction ls as [|link rest IH]; intros cs.
  - simpl. intros [= <-]. split; [reflexivity | constructor].
  - rewrite candidates_loop_cons. simpl List.filter.
    destruct (candidate_step link) as [[c|]|e] eqn:Hstep; [| |discriminate].
    + apply candidate_step_some in Hstep as (Hurl & Hw & Hb). rewrite Hw.
      destruct (candidates_loop rest []) as [cs'|]; [|discriminate].
      intros [= <-]. destruct (IH cs' eq_refl) as [Hm Hf].
      split; [simpl; congruence | now constructor].
    + apply candidate_step_none in Hstep. rewrite Hstep. apply IH.
Qed.

Lemma candidates_loop_nil_iff ls :
  candidates_loop ls [] = Return [] <-> forall link, In link ls -> is_wheel link = false.
Proof.
  induction ls as [|link rest IH].
  - simpl. split; [tauto | reflexivity].
  - rewrite candidates_loop_cons.
    destruct (candidate_step link) as [[c|]|e] eqn:Hstep.
    + apply candidate_step_some in Hstep as (_ & Hw & _).
      split.
      * destruct (candidates_loop rest []); discriminate.
      * intros Hall. rewrite (Hall link) in Hw; [discriminate | now left].
    + apply candidate_step_none in Hstep. rewrite IH. split.
      * intros Hall l [<- | Hl]; auto.
      * intros Hall l Hl. apply Hall. now right.
    + split; [discriminate|]. intros Hall.
      assert (Hn : candidate_step link = Return None)
        by (apply candidate_step_none, Hall; now left).
      congruence.
Qed.

(** The loop raises [IndexError] exactly at the first link it cannot
    handle, when that link is a wheel whose name has no hyphen. *)
Lemma candidates_loop_index_error_iff ls :
  candidates_loop ls [] = Raise IndexError
  <-> exists before link after cs,
        ls = before ++ link :: after
        /\ candidates_loop before [] = Return cs
        /\ is_wheel link = true
        /\ Py.contains "-" (link_filename link) = false.
Proof.
  induction ls as [|l rest IH].
  - simpl. split; [discriminate|].
    intros (before & link & after & cs & Hsplit & _). destruct before; discriminate.
  - rewrite candidates_loop_cons. split.
    + destruct (candidate_step l) as [[c|]|e] eqn:Hstep.
      * destruct (candidates_loop rest []) as [cs'|e'] eqn:Hrest; [discriminate|].
        intros [= ->].
        destruct (proj1 IH eq_refl) as (before & link & after & cs & -> & Hb & Hw & Hc).
        exists (l :: before), link, after, (c :: cs). repeat split; try assumption.
        rewrite candidates_loop_cons, Hstep, Hb. reflexivity.
      * intros Hrest.
        destruct (proj1 IH Hrest) as (before & link & after & cs & -> & Hb & Hw & Hc).
        exists (l :: before), link, after, cs. repeat split; try assumption.
        rewrite candidates_loop_cons, Hstep. exact Hb.
      * intros [= ->]. apply candidate_step_index_error in Hstep as [Hw Hc].
        exists [], l, rest, []. repeat split; assumption.
    + intros (before & link & after & cs & Hsplit & Hb & Hw & Hc).
      destruct before as [|b before'].
      * simpl in Hsplit. injection Hsplit as -> ->.
        rewrite (proj2 (candidate_step_index_error link) (conj Hw Hc)). reflexivity.
      * simpl in Hsplit. injection Hsplit as -> ->.
        rewrite candidates_loop_cons in Hb.
        assert (Hgoal : candidates_loop (before' ++ link :: after) [] = Raise IndexError).
        { apply IH. destruct (candidate_step b) as [[c|]|e]; [| |discriminate].
          - destruct (candidates_loop before' []) as [cs'|] eqn:Hb'; [|discriminate].
            exists before', link, after, cs'. repeat split; assumption.
          - exists before', link, after, cs. repeat split; assumption. }
        rewrite Hgoal.
        destruct (candidate_step b) as [[c|]|e]; [reflexivity | reflexivity | discriminate].
Qed.

(** [find], statement by statement. *)
Lemma find_unfold (self : PipInstaller) (index_url : string) (w : World) :
  find self index_url w
  = let simple := urljoin index_url (Some "pip/") in
    let w1 := set_gets (gets w ++ [simple]) w in
    match http_get (gets w) simple with
    | None => (Raise ConnectionError, w1)
    | Some resp =>
        if Z.leb 400 (status_code resp) && Z.ltb (status_code resp) 600
        then (Raise (HTTPError (status_code resp)), w1)
        else
          match candidates_loop (links (feed (LinkExtractor_init simple) (text resp))) [] with
          | Raise e => (Raise e, w1)
          | Return cs =>
              if bool_decide (cs = []) then (Raise NoAcceptableFile, w1)
              else match sorted_reverse cs !! 0%nat with
                   | Some c => (Return c, w1)
                   | None => (Raise IndexError, w1)
                   end
          end
    end.
Proof.
  unfold find, bind, session_get, raise_for_status, lift, raise, ret. simpl.
  destruct (http_get (gets w) (urljoin index_url (Some "pip/"))) as [resp|]; [|reflexivity].
  destruct (Z.leb 400 (status_code resp) && Z.ltb (status_code resp) 600); [reflexivity|].
  destruct (candidates_loop _ []) as [cs|e]; [|reflexivity].
  destruct (bool_decide (cs = [])); [reflexivity|].
  destruct (sorted_reverse cs !! 0%nat); reflexivity.
Qed.

Lemma status_ok_test (resp : Response) :
  Z.leb 400 (status_code resp) && Z.ltb (status_code resp) 600 = false <-> status_ok resp.
Proof.
  unfold status_ok. rewrite andb_false_iff, Z.leb_gt, Z.ltb_ge. lia.
Qed.

End FindProperties.

Section FindTheorems.

Context `{platform : Platform}.

Lemma In_sort_acc z l acc :
  In z (fold_left (fun a x => insert x a) l acc) <-> In z l \/ In z acc.
Proof.
  revert acc. induction l as [|x l IH]; intros acc; simpl; [tauto|].
  rewrite IH, In_insert. intuition (subst; auto).
Qed.

Lemma In_sorted_reverse z l : In z (sorted_reverse l) <-> In z l.
Proof.
  unfold sorted_reverse, sort.
  rewrite <- in_rev, In_sort_acc, <- in_rev. simpl. tauto.
Qed.

(** When every wheel link is eligible the loop of [find] completes. *)
Lemma candidates_loop_total (ls : list string) :
  (forall link, In link ls -> is_wheel link = true -> eligible link = true) ->
  exists cs, candidates_loop ls [] = Return cs.
Proof.
  induction ls as [|l rest IH]; intros Hall; [now exists []|].
  destruct IH as [cs Hcs]; [intros link Hin; apply Hall; now right|].
  rewrite candidates_loop_cons, Hcs. unfold candidate_step.
  destruct (is_wheel l) eqn:Hw; simpl; [|now exists cs].
  pose proof (Hall l (or_introl eq_refl) Hw) as He. unfold eligible in He.
  rewrite Hw in He. simpl in He.
  destruct (Py.split "-" (link_filename l) !! 1%nat) as [part|]; [|discriminate].
  apply bool_decide_eq_true in He as [v Hv]. rewrite Hv. eauto.
Qed.

(** C1, as the code has it. When the index page was fetched, every link of
    it whose file name ends in [.whl] is eligible (its second
    hyphen-delimited token parses as a version) and there is such a link,
    [find] returns a candidate [c] of the candidates [cs] of these links
    such that no candidate has a greater version and every candidate in
    front of [c] in extraction order has a strictly smaller one: the first of
    the candidates of maximal version. The candidates stand in the order of
    the wheel links of the page. *)
Theorem find_selects_first_maximal
  (version_order : strict_weak_order version_lt)
  (self : PipInstaller) (index_url : string) (w : World) (resp : Response) :
  let simple := urljoin index_url (Some "pip/") in
  let page_links := links (feed (LinkExtractor_init simple) (text resp)) in
  http_get (gets w) simple = Some resp ->
  status_ok resp ->
  (forall link, In link page_links -> is_wheel link = true -> eligible link = true) ->
  (exists link, In link page_links /\ is_wheel link = true) ->
  exists cs before c after,
    candidates_loop page_links [] = Return cs
    /\ find self index_url w = (Return c, set_gets (gets w ++ [simple]) w)
    /\ cs = before ++ c :: after
    /\ map url cs = List.filter is_wheel page_links
    /\ (forall c', In c' before -> version_lt (version c') (version c) = true)
    /\ (forall c', In c' after -> version_lt (version c) (version c') = false).
Proof.
  intros simple page_links Hget Hok Hall (link & Hin & Hw).
  destruct (candidates_loop_total page_links Hall) as [cs Hloop].
  destruct (candidates_loop_return _ _ Hloop) as [Hmap _].
  assert (Hne : cs <> []).
  { intros ->. simpl in Hmap.
    assert (Hf : In link (List.filter is_wheel page_links)) by (apply filter_In; auto).
    rewrite <- Hmap in Hf. exact Hf. }
  destruct (later_max_rev_spec version_order cs Hne)
    as (before & c & after & Hbest & Hsplit & Hbefore & Hafter).
  exists cs, before, c, after.
  repeat split; try assumption.
  subst simple page_links. rewrite find_unfold. cbv zeta. rewrite Hget.
  rewrite (proj2 (status_ok_test resp) Hok), Hloop.
  destruct (bool_decide (cs = [])) eqn:Hnil;
    [apply bool_decide_eq_true in Hnil; contradiction|].
  rewrite (sorted_reverse_head version_order), Hbest. reflexivity.
Qed.

(** C2, as the code has it. A candidate that [find] returns was built
    from an extracted link whose file name ends in [.whl] and whose second
    hyphen-delimited token the version parser accepted; and [find] raises
    [NoAcceptableFile] exactly when the index page was fetched and no
    extracted link has a file name ending in [.whl]. *)
Theorem find_no_acceptable_file_iff
  (self : PipInstaller) (index_url : string) (w : World) :
  let simple := urljoin index_url (Some "pip/") in
  (forall c w', find self index_url w = (Return c, w') ->
     built_from_link c
     /\ exists resp, http_get (gets w) simple = Some resp
          /\ In (url c) (links (feed (LinkExtractor_init simple) (text resp))))
  /\ (fst (find self index_url w) = Raise NoAcceptableFile
      <-> exists resp,
            http_get (gets w) simple = Some resp
            /\ status_ok resp
            /\ forall link,
                 In link (links (feed (LinkExtractor_init simple) (text resp))) ->
                 is_wheel link = false).
Proof.
  intros simple. subst simple. rewrite find_unfold. cbv zeta.
  set (simple := urljoin index_url (Some "pip/")).
  destruct (http_get (gets w) simple) as [resp|] eqn:Hget.
  2:{ split; [intros c w'; discriminate|].
      split; [discriminate | intros (resp & [=] & _)]. }
  destruct (Z.leb 400 (status_code resp) && Z.ltb (status_code resp) 600) eqn:Hst.
  { split; [intros c w'; discriminate|].
    split; [discriminate|].
    intros (resp' & [= <-] & Hok & _). apply status_ok_test in Hok. congruence. }
  apply status_ok_test in Hst.
  destruct (candidates_loop _ []) as [cs|e] eqn:Hloop.
  - destruct (bool_decide (cs = [])) eqn:Hnil.
    + apply bool_decide_eq_true in Hnil. subst cs.
      split; [intros c w'; discriminate|].
      split; [|reflexivity]. intros _. exists resp.
      repeat split; try assumption. now apply candidates_loop_nil_iff.
    + apply bool_decide_eq_false in Hnil.
      destruct (sorted_reverse_head_some cs Hnil) as [c0 Hhead]. rewrite Hhead.
      split.
      * intros c w' [= <- <-].
        assert (Hin : In c0 cs).
        { apply In_sorted_reverse, list_elem_of_In.
          apply list_elem_of_lookup. now exists 0%nat. }
        destruct (candidates_loop_return _ _ Hloop) as [Hmap Hbuilt].
        split; [rewrite List.Forall_forall in Hbuilt; now apply Hbuilt|].
        exists resp. split; [reflexivity|].
        assert (Hu : In (url c0) (map url cs)) by now apply in_map.
        rewrite Hmap in Hu. now apply filter_In in Hu as [Hu _].
      * split; [discriminate|].
        intros (resp' & [= <-] & _ & Hall).
        apply candidates_loop_nil_iff in Hall. congruence.
  - split; [intros c w'; discriminate|]. simpl. split.
    + intros [= ->]. exfalso.
      clear -Hloop. revert Hloop.
      generalize (links (feed (LinkExtractor_init simple) (text resp))).
      intros ls. induction ls as [|l rest IH]; [discriminate|].
      rewrite candidates_loop_cons. unfold candidate_step.
      destruct (negb (is_wheel l)); [exact IH|].
      destruct (Py.split "-" (link_filename l) !! 1%nat) as [part|]; [|discriminate].
      destruct (version_parse part); [|discriminate].
      destruct (candidates_loop rest []); [discriminate | exact IH].
    + intros (resp' & [= <-] & _ & Hall).
      apply candidates_loop_nil_iff in Hall. congruence.
Qed.

(** C9. [find] raises [IndexError] exactly when the index page was fetched
    and, the links in front of it having been handled, a link comes whose
    file name ends in [.whl] and contains no hyphen: the file is neither
    skipped nor reported by [NoAcceptableFile]. When every [.whl] file name
    of the page contains a hyphen, [find] does not raise [IndexError]. *)
Theorem find_index_error_iff
  (self : PipInstaller) (index_url : string) (w : World) :
  let simple := urljoin index_url (Some "pip/") in
  (fst (find self index_url w) = Raise IndexError
   <-> exists resp before link after cs,
         http_get (gets w) simple = Some resp
         /\ status_ok resp
         /\ links (feed (LinkExtractor_init simple) (text resp)) = before ++ link :: after
         /\ candidates_loop before [] = Return cs
         /\ is_wheel link = true
         /\ Py.contains "-" (link_filename link) = false)
  /\ ((forall resp link,
         http_get (gets w) simple = Some resp ->
         In link (links (feed (LinkExtractor_init simple) (text resp))) ->
         is_wheel link = true -> Py.contains "-" (link_filename link) = true) ->
      fst (find self index_url w) <> Raise IndexError).
Proof.
  intros simple.
  assert (Hiff :
    fst (find self index_url w) = Raise IndexError
    <-> exists resp before link after cs,
          http_get (gets w) simple = Some resp
          /\ status_ok resp
          /\ links (feed (LinkExtractor_init simple) (text resp)) = before ++ link :: after
          /\ candidates_loop before [] = Return cs
          /\ is_wheel link = true
          /\ Py.contains "-" (link_filename link) = false).
  { subst simple. rewrite find_unfold. cbv zeta.
    set (simple := urljoin index_url (Some "pip/")).
    destruct (http_get (gets w) simple) as [resp|] eqn:Hget.
    2:{ split; [discriminate | intros (resp & ? & ? & ? & ? & [=] & _)]. }
    destruct (Z.leb 400 (status_code resp) && Z.ltb (status_code resp) 600) eqn:Hst.
    { split; [discriminate|].
      intros (resp' & ? & ? & ? & ? & [= <-] & Hok & _).
      apply status_ok_test in Hok. congruence. }
    apply status_ok_test in Hst.
    destruct (candidates_loop _ []) as [cs|e] eqn:Hloop.
    - assert (Hno : ~ exists before link after cs0,
                 links (feed (LinkExtractor_init simple) (text resp)) = before ++ link :: after
                 /\ candidates_loop before [] = Return cs0
                 /\ is_wheel link = true
                 /\ Py.contains "-" (link_filename link) = false).
      { intros Hex. apply candidates_loop_index_error_iff in Hex. congruence. }
      split.
      + destruct (bool_decide (cs = [])) eqn:Hnil; [discriminate|].
        apply bool_decide_eq_false in Hnil.
        destruct (sorted_reverse_head_some cs Hnil) as [c0 ->]. discriminate.
      + intros (resp' & before & link & after & cs0 & [= <-] & _ & H1 & H2 & H3 & H4).
        exfalso. apply Hno. now exists before, link, after, cs0.
    - simpl. split.
      + intros [= ->]. apply candidates_loop_index_error_iff in Hloop
          as (before & link & after & cs0 & H1 & H2 & H3 & H4).
        now exists resp, before, link, after, cs0.
      + intros (resp' & before & link & after & cs0 & [= <-] & _ & H1 & H2 & H3 & H4).
        assert (Hex : candidates_loop
                        (links (feed (LinkExtractor_init simple) (text resp))) []
                      = Raise IndexError).
        { apply candidates_loop_index_error_iff. now exists before, link, after, cs0. }
        congruence. }
  split; [exact Hiff|].
  intros Hhyphen Herr. apply Hiff in Herr
    as (resp & before & link & after & cs & Hget & _ & Hsplit & _ & Hw & Hc).
  rewrite (Hhyphen resp link Hget) in Hc; [discriminate| |assumption].
  rewrite Hsplit. apply in_elt.
Qed.

End FindTheorems.

(** ** The order on the versions of the sample platform *)

Section Pep440Order.

Local Open Scope N_scope.

Lemma list_ltb_irrefl (a : list N) : Pep440.list_ltb a a = false.
Proof.
  induction a as [|x a IH]; simpl; [reflexivity|].
  now rewrite N.ltb_irrefl.
Qed.

Lemma list_ltb_trans (a b c : list N) :
  Pep440.list_ltb a b = true -> Pep440.list_ltb b c = true -> Pep440.list_ltb a c = true.
Proof.
  revert b c. induction a as [|x a IH]; intros [|y b] [|z c]; simpl; try congruence.
  destruct (N.ltb_spec x y), (N.ltb_spec y x), (N.ltb_spec y z), (N.ltb_spec z y),
    (N.ltb_spec x z), (N.ltb_spec z x);
    try congruence; try lia; apply IH.
Qed.

Lemma list_ltb_incomp (a b c : list N) :
  Pep440.list_ltb a b = false -> Pep440.list_ltb b c = false -> Pep440.list_ltb a c = false.
Proof.
  revert b c. induction a as [|x a IH]; intros [|y b] [|z c]; simpl; try congruence.
  destruct (N.ltb_spec x y), (N.ltb_spec y x), (N.ltb_spec y z), (N.ltb_spec z y),
    (N.ltb_spec x z), (N.ltb_spec z x);
    try congruence; try lia; apply IH.
Qed.

Lemma pep440_strict_weak_order : strict_weak_order Pep440.lt.
Proof.
  unfold Pep440.lt. constructor.
  - intros a. apply list_ltb_irrefl.
  - intros a b c. apply list_ltb_trans.
  - intros a b c. apply list_ltb_incomp.
Qed.

End Pep440Order.

(** ** [find] on the sample site *)

Lemma find_selects_first_maximal_witness :
  exists cs before c after,
    candidates_loop (platform := site)
      (links (feed (platform := site)
                (LinkExtractor_init (urljoin (Platform := site) default_index_url (Some "pip/")))
                (text response_main))) [] = Return cs
    /\ find (platform := site) (installer0 "/envs/ok") default_index_url world0
       = (Return c,
          set_gets (gets world0 ++ [urljoin (Platform := site) default_index_url (Some "pip/")])
            world0)
    /\ cs = before ++ c :: after
    /\ map url cs
       = List.filter (is_wheel (platform := site))
           (links (feed (platform := site)
                     (LinkExtractor_init
                        (urljoin (Platform := site) default_index_url (Some "pip/")))
                     (text response_main)))
    /\ (forall c', In c' before -> version_lt (version c') (version c) = true)
    /\ (forall c', In c' after -> version_lt (version c) (version c') = false).
Proof.
  apply (find_selects_first_maximal (platform := site) pep440_strict_weak_order
           (installer0 "/envs/ok") default_index_url world0 response_main).
  - vm_compute. reflexivity.
  - unfold status_ok. simpl. lia.
  - intros link Hin. vm_compute in Hin.
    repeat (destruct Hin as [<- | Hin]; [vm_compute; congruence|]).
    destruct Hin.
  - exists "https://pypi.python.org/simple/pip/pip-1.0.0-py3-none-any.whl".
    split; [vm_compute; auto | vm_compute; reflexivity].
Defined.

(** A page that lists an eligible wheel, and behind it a wheel whose name
    has no hyphen: [find] returns no candidate, it raises [IndexError]. *)
Lemma find_selects_first_maximal_counterexample :
  http_get (Platform := site) (gets world0) "https://index.example/mixed/pip/"
  = Some {| status_code := 200; text := Site.page_mixed;
            content := Py.encode_utf8 Site.page_mixed |}
  /\ links (feed (platform := site) (LinkExtractor_init "https://index.example/mixed/pip/")
             Site.page_mixed)
     = ["https://index.example/mixed/pip/pip-1.0.0-py3-none-any.whl";
        "https://index.example/mixed/pip/pip.whl"]
  /\ eligible (platform := site)
       "https://index.example/mixed/pip/pip-1.0.0-py3-none-any.whl" = true
  /\ fst (find (platform := site) (installer0 "/envs/ok")
            "https://index.example/mixed/" world0)
     = Raise IndexError.
Proof. repeat split; vm_compute; reflexivity. Qed.

(** The three file names of the specification and a second copy of the
    greatest: the first listed wheel of pip 2.0.0 is selected. *)
Example find_main_page :
  fst (find (platform := site) (installer0 "/envs/ok") default_index_url world0)
  = Return pip_2_0_0.
Proof. vm_compute. reflexivity. Qed.

(** A page whose only wheel has a second token that is no version: there is
    no eligible link, yet [find] does not raise [NoAcceptableFile]. *)
Lemma find_no_acceptable_file_counterexample :
  http_get (Platform := site) (gets world0) "https://index.example/odd/pip/"
  = Some {| status_code := 200; text := Site.page_odd;
            content := Py.encode_utf8 Site.page_odd |}
  /\ links (feed (platform := site) (LinkExtractor_init "https://index.example/odd/pip/")
             Site.page_odd)
     = ["https://index.example/odd/pip/pip-zzz-py3-none-any.whl"]
  /\ List.filter (eligible (platform := site))
       ["https://index.example/odd/pip/pip-zzz-py3-none-any.whl"] = []
  /\ fst (find (platform := site) (installer0 "/envs/ok") "https://index.example/odd/" world0)
     = Raise (InvalidVersion "zzz")
  /\ fst (find (platform := site) (installer0 "/envs/ok") "https://index.example/odd/" world0)
     <> Raise NoAcceptableFile.
Proof.
  repeat split; try (vm_compute; reflexivity).
  vm_compute. discriminate.
Qed.

Lemma find_no_acceptable_file_iff_witness :
  fst (find (platform := site) (installer0 "/envs/ok") "https://index.example/sdist/" world0)
  = Raise NoAcceptableFile.
Proof.
  apply (find_no_acceptable_file_iff (platform := site)
           (installer0 "/envs/ok") "https://index.example/sdist/" world0).
  exists {| status_code := 200; text := Site.page_sdist;
            content := Py.encode_utf8 Site.page_sdist |}.
  split; [vm_compute; reflexivity|].
  split; [unfold status_ok; simpl; lia|].
  intros link Hin. vm_compute in Hin. destruct Hin as [<- | []].
  vm_compute. reflexivity.
Defined.

Lemma find_index_error_iff_witness :
  fst (find (platform := site) (installer0 "/envs/ok") "https://index.example/flat/" world0)
  = Raise IndexError.
Proof.
  apply (find_index_error_iff (platform := site)
           (installer0 "/envs/ok") "https://index.example/flat/" world0).
  exists {| status_code := 200; text := Site.page_flat;
            content := Py.encode_utf8 Site.page_flat |},
    [], "https://index.example/flat/pip/pip.whl", [], [].
  repeat split; try (vm_compute; reflexivity).
  unfold status_ok. simpl. lia.
Defined.

(** A wheel without hyphen makes [find] fail even when the page lists an
    installable wheel in front of it. *)
Example find_mixed_page :
  fst (find (platform := site) (installer0 "/envs/ok") "https://index.example/mixed/" world0)
  = Raise IndexError.
Proof. vm_compute. reflexivity. Qed.

(** ** Properties of [download] *)

Section DownloadProperties.

Context `{platform : Platform}.

Lemma write_file_return (p : string) (data : list byte) (f f' : FS) :
  os.write_file p data f = Return f' ->
  files f' !! p = Some data /\ os.path_exists p f' = true /\ dirs f' = dirs f.
Proof.
  unfold os.write_file.
  destruct (bool_decide (p ∈ dirs f) || Py.endswith p "/" || String.eqb p EmptyString);
    [discriminate|].
  destruct (bool_decide (is_Some (files f !! posixpath.dirname p))); [discriminate|].
  destruct (negb (String.eqb (posixpath.dirname p) EmptyString)
            && negb (Py.all_chars "/" (posixpath.dirname p))
            && negb (bool_decide (posixpath.dirname p ∈ dirs f))); [discriminate|].
  intros [= <-]. unfold os.path_exists. simpl.
  rewrite lookup_insert_eq. split; [reflexivity|]. split; [|reflexivity].
  rewrite bool_decide_eq_true_2; [reflexivity | eauto].
Qed.

(** [download], statement by statement. *)
Lemma download_unfold (self : PipInstaller) (c : Candidate Version) (w : World) (root : string) :
  cache_dir self = Some root ->
  download self c w
  = let p := cache_path root c in
    if os.path_exists p (fs w) then (Return p, w)
    else
      let w1 := set_gets (gets w ++ [url c]) w in
      match http_get (gets w) (url c) with
      | None => (Raise ConnectionError, w1)
      | Some resp =>
          if Z.leb 400 (status_code resp) && Z.ltb (status_code resp) 600
          then (Raise (HTTPError (status_code resp)), w1)
          else
            match (if os.path_exists (posixpath.dirname p) (fs w) then Return (fs w)
                   else os.makedirs (posixpath.dirname p) (fs w)) with
            | Raise e => (Raise e, w1)
            | Return f1 =>
                match os.write_file p (content resp) f1 with
                | Raise e => (Raise e, set_fs f1 w1)
                | Return f2 => (Return p, set_fs f2 w1)
                end
            end
      end.
Proof.
  intros Hroot. unfold download, cache_path. rewrite Hroot. cbv zeta.
  set (p := posixpath.join root [hashed c; filename c]).
  unfold bind, os_path_exists, session_get, raise_for_status, on_fs, raise, ret.
  destruct (os.path_exists p (fs w)); [reflexivity|].
  cbn [negb].
  destruct (http_get (gets w) (url c)) as [resp|]; [|reflexivity].
  destruct (Z.leb 400 (status_code resp) && Z.ltb (status_code resp) 600); [reflexivity|].
  cbn [fs set_gets].
  destruct (os.path_exists (posixpath.dirname p) (fs w)); cbn [negb fs set_gets].
  - destruct (os.write_file p (content resp) (fs w)); reflexivity.
  - destruct (os.makedirs (posixpath.dirname p) (fs w)) as [f1|e]; [|reflexivity].
    cbn [fs set_fs].
    destruct (os.write_file p (content resp) f1); reflexivity.
Qed.

Lemma download_no_cache_dir (self : PipInstaller) (c : Candidate Version) (w : World) :
  cache_dir self = None -> download self c w = (Raise TypeError, w).
Proof. intros Hnone. unfold download. now rewrite Hnone. Qed.

(** Every way [download] can return. *)
Lemma download_return (self : PipInstaller) (c : Candidate Version) (w : World) p w' :
  download self c w = (Return p, w') ->
  exists root,
    cache_dir self = Some root /\ p = cache_path root c
    /\ ((os.path_exists p (fs w) = true /\ w' = w)
        \/ (os.path_exists p (fs w) = false
            /\ exists resp f2,
                 http_get (gets w) (url c) = Some resp
                 /\ status_ok resp
                 /\ files f2 !! p = Some (content resp)
                 /\ os.path_exists p f2 = true
                 /\ w' = set_fs f2 (set_gets (gets w ++ [url c]) w))).
Proof.
  destruct (cache_dir self) as [root|] eqn:Hroot.
  2:{ rewrite download_no_cache_dir by assumption. discriminate. }
  rewrite (download_unfold _ _ _ root Hroot). cbv zeta.
  intros Hd. exists root. split; [reflexivity|].
  destruct (os.path_exists (cache_path root c) (fs w)) eqn:Hex.
  - injection Hd as <- <-. split; [reflexivity|]. left. split; [assumption | reflexivity].
  - destruct (http_get (gets w) (url c)) as [resp|] eqn:Hget; [|discriminate].
    destruct (Z.leb 400 (status_code resp) && Z.ltb (status_code resp) 600) eqn:Hst;
      [discriminate|].
    apply status_ok_test in Hst.
    destruct (if os.path_exists _ (fs w) then _ else _) as [f1|e]; [|discriminate].
    destruct (os.write_file _ (content resp) f1) as [f2|e] eqn:Hw; [|discriminate].
    injection Hd as <- <-. split; [reflexivity|]. right. split; [exact Hex|].
    apply write_file_return in Hw as (Hfile & Hexists & _).
    exists resp, f2. repeat split; assumption.
Qed.

(** C4. After a first call that found nothing at the cache path and
    returned, a second call with the same candidate returns the same path
    and leaves the world as it is: no request, no directory, no write. The
    two calls together made one request, for the URL of the candidate, and
    the file at the path holds the body of its response. *)
Theorem download_twice_one_get
  (self : PipInstaller) (c : Candidate Version) (w w1 : World) (root p : string) :
  cache_dir self = Some root ->
  os.path_exists (cache_path root c) (fs w) = false ->
  download self c w = (Return p, w1) ->
  download self c w1 = (Return p, w1)
  /\ p = cache_path root c
  /\ gets w1 = gets w ++ [url c]
  /\ exists resp,
       http_get (gets w) (url c) = Some resp
       /\ files (fs w1) !! p = Some (content resp).
Proof.
  intros Hroot Hmiss Hd.
  destruct (download_return _ _ _ _ _ Hd) as (root' & Hroot' & Hp & Hcase).
  assert (root' = root) by congruence. subst root' p.
  destruct Hcase as [[Hhit _] | (_ & resp & f2 & Hget & _ & Hfile & Hex & ->)];
    [congruence|].
  repeat split.
  - rewrite (download_unfold _ _ _ root Hroot). cbv zeta. simpl. now rewrite Hex.
  - exists resp. split; assumption.
Qed.

(** C6, as the code has it. On a cache miss, a response with a status from
    400 to 599 makes [download] raise [HTTPError]; the request is made, and
    the file system is left as it was: no directory is created and no
    file is written. *)
Theorem download_http_error_keeps_cache
  (self : PipInstaller) (c : Candidate Version) (w : World) (root : string) (resp : Response) :
  cache_dir self = Some root ->
  os.path_exists (cache_path root c) (fs w) = false ->
  http_get (gets w) (url c) = Some resp ->
  400 <= status_code resp < 600 ->
  download self c w
  = (Raise (HTTPError (status_code resp)), set_gets (gets w ++ [url c]) w)
  /\ fs (snd (download self c w)) = fs w.
Proof.
  intros Hroot Hmiss Hget Hst.
  assert (Hd : download self c w
               = (Raise (HTTPError (status_code resp)), set_gets (gets w ++ [url c]) w)).
  { rewrite (download_unfold _ _ _ root Hroot). cbv zeta. rewrite Hmiss, Hget.
    destruct (Z.leb 400 (status_code resp) && Z.ltb (status_code resp) 600) eqn:Ht;
      [reflexivity|].
    apply status_ok_test in Ht. unfold status_ok in Ht. contradiction. }
  split; [exact Hd | now rewrite Hd].
Qed.


End DownloadProperties.

(** ** Paths *)

Section PathProperties.

Lemma append_cons (x : ascii) (a b : string) : String x a +:+ b = String x (a +:+ b).
Proof. reflexivity. Qed.

Lemma append_nil_l (b : string) : EmptyString +:+ b = b.
Proof. reflexivity. Qed.

Lemma append_assoc (a b c : string) : (a +:+ b) +:+ c = a +:+ (b +:+ c).
Proof.
  induction a as [|x a IH]; [reflexivity|].
  now rewrite !append_cons, IH.
Qed.

Lemma length_append (a b : string) :
  String.length (a +:+ b) = (String.length a + String.length b)%nat.
Proof.
  induction a as [|x a IH]; [reflexivity|].
  rewrite append_cons. simpl. now rewrite IH.
Qed.

Lemma append_cancel_r (a b s : string) : a +:+ s = b +:+ s -> a = b.
Proof.
  revert b. induction a as [|x a IH]; intros [|y b] Heq.
  - reflexivity.
  - apply (f_equal String.length) in Heq.
    rewrite append_nil_l, length_append in Heq. simpl in Heq. lia.
  - apply (f_equal String.length) in Heq.
    rewrite append_nil_l, length_append in Heq. simpl in Heq. lia.
  - rewrite !append_cons in Heq. injection Heq as -> Heq. f_equal. now apply IH.
Qed.

Lemma last_char_none (s : string) : Py.last_char s = None <-> s = EmptyString.
Proof.
  destruct s as [|a r]; simpl; [tauto|].
  destruct (Py.last_char r); split; discriminate.
Qed.

Lemma last_char_append (a b : string) :
  b <> EmptyString -> Py.last_char (a +:+ b) = Py.last_char b.
Proof.
  intros Hb. induction a as [|x a IH]; [reflexivity|].
  rewrite append_cons. simpl.
  rewrite IH. destruct (Py.last_char b) eqn:Hl; [reflexivity|].
  apply last_char_none in Hl. contradiction.
Qed.

Lemma endswith_slash (s : string) :
  Py.endswith s "/"
  = match Py.last_char s with Some c => Ascii.eqb c "/" | None => false end.
Proof.
  induction s as [|a r IH]; [reflexivity|].
  destruct r as [|b r'].
  - unfold Py.endswith. simpl. destruct (Ascii.eqb a "/"); reflexivity.
  - change (Py.last_char (String a (String b r')))
      with (match Py.last_char (String b r') with None => Some a | Some c => Some c end).
    destruct (Py.last_char (String b r')) as [c|] eqn:Hl.
    2:{ apply last_char_none in Hl. discriminate. }
    rewrite <- IH. unfold Py.endswith. simpl. now rewrite !Nat.sub_0_r.
Qed.

Lemma startswith_slash (s : string) :
  Py.startswith s "/"
  = match s with String c _ => Ascii.eqb c "/" | EmptyString => false end.
Proof.
  destruct s as [|c r]; simpl; [reflexivity|].
  destruct (Ascii.eqb c "/"); [destruct r|]; reflexivity.
Qed.

Lemma hex_digit_high (b : byte) :
  Ascii.eqb (hex_digit (N.div (Byte.to_N b) 16)) "/" = false.
Proof. destruct b; reflexivity. Qed.

Lemma hex_digit_low (b : byte) :
  Ascii.eqb (hex_digit (N.modulo (Byte.to_N b) 16)) "/" = false.
Proof. destruct b; reflexivity. Qed.

Lemma hexlify_last (digest : list byte) :
  digest <> [] ->
  exists c, Py.last_char (hexlify digest) = Some c /\ Ascii.eqb c "/" = false.
Proof.
  induction digest as [|b r IH]; intros Hne; [congruence|].
  destruct r as [|b' r'].
  - simpl. eexists. split; [reflexivity | apply hex_digit_low].
  - destruct IH as (c & Hc & Hs); [discriminate|].
    exists c. split; [|assumption].
    change (hexlify (b :: b' :: r'))
      with (String (hex_digit (N.div (Byte.to_N b) 16))
              (String (hex_digit (N.modulo (Byte.to_N b) 16)) (hexlify (b' :: r')))).
    cbn [Py.last_char]. now rewrite Hc.
Qed.

Lemma length_hexlify (digest : list byte) :
  String.length (hexlify digest) = (2 * length digest)%nat.
Proof. induction digest as [|b r IH]; simpl; [reflexivity | rewrite IH; lia]. Qed.

(** The shape of a hexadecimal digest inside a path: not empty, no slash
    at either end. *)
Lemma hexlify_path_segment (digest : list byte) :
  digest <> [] ->
  hexlify digest <> EmptyString
  /\ Py.startswith (hexlify digest) "/" = false
  /\ Py.endswith (hexlify digest) "/" = false.
Proof.
  intros Hne. split; [|split].
  - destruct digest; [congruence | discriminate].
  - rewrite startswith_slash. destruct digest as [|b r]; [congruence|].
    simpl. apply hex_digit_high.
  - rewrite endswith_slash. destruct (hexlify_last digest Hne) as (c & -> & Hc). exact Hc.
Qed.

(** Joining a root, a key and a file name gives [root/key/name]. *)
Lemma join_three (root key name : string) :
  root <> EmptyString -> Py.endswith root "/" = false ->
  key <> EmptyString -> Py.startswith key "/" = false -> Py.endswith key "/" = false ->
  Py.startswith name "/" = false ->
  posixpath.join root [key; name] = root +:+ "/" +:+ key +:+ "/" +:+ name.
Proof.
  intros Hroot Hroot_end Hkey Hkey_start Hkey_end Hname.
  unfold posixpath.join. simpl. unfold posixpath.join_step.
  rewrite Hkey_start, Hroot_end.
  destruct (String.eqb_spec root EmptyString) as [|_]; [contradiction|]. simpl.
  rewrite Hname.
  assert (Hend : Py.endswith (root +:+ "/" +:+ key) "/" = false).
  { rewrite endswith_slash, last_char_append.
    - change ("/" +:+ key) with (String "/" key). simpl.
      rewrite endswith_slash in Hkey_end.
      destruct (Py.last_char key) eqn:Hl; [exact Hkey_end|].
      apply last_char_none in Hl. contradiction.
    - discriminate. }
  rewrite Hend.
  destruct (String.eqb_spec (root +:+ "/" +:+ key) EmptyString) as [He|_].
  - destruct root; [contradiction | discriminate].
  - simpl. now rewrite !append_assoc.
Qed.

(** Joining a root and two plain names gives [root/a/b]. *)
Lemma join_bin_python (root : string) :
  root <> EmptyString -> Py.endswith root "/" = false ->
  posixpath.join root ["bin"; "python"] = root +:+ "/bin/python".
Proof.
  intros Hroot Hend.
  rewrite (join_three root "bin" "python"); try reflexivity; try assumption; discriminate.
Qed.

(** [rfind] finds the last occurrence: nothing behind it. *)
Lemma rfind_from_spec (c : ascii) (s : string) (i found : Z) :
  (Py.contains c s = false /\ Py.rfind_from c s i found = found)
  \/ (i <= Py.rfind_from c s i found
      /\ Py.contains c (Py.drop_chars (Z.to_nat (Py.rfind_from c s i found - i + 1)) s)
         = false).
Proof.
  revert i found. induction s as [|a r IH]; intros i found; simpl.
  - left. split; reflexivity.
  - destruct (IH (i + 1) (if Ascii.eqb a c then i else found)) as [[Hno Hr] | [Hle Hno]].
    + rewrite Hr, Hno. destruct (Ascii.eqb a c) eqn:Hac; simpl.
      * right. split; [lia|].
        replace (i - i + 1) with 1 by lia. simpl. exact Hno.
      * left. split; reflexivity.
    + right. split; [lia|].
      set (k := Py.rfind_from c r (i + 1) (if Ascii.eqb a c then i else found)) in *.
      replace (Z.to_nat (k - i + 1)) with (S (Z.to_nat (k - (i + 1) + 1))) by lia.
      simpl. exact Hno.
Qed.

Lemma basename_no_slash (p : string) : Py.contains "/" (posixpath.basename p) = false.
Proof.
  unfold posixpath.basename, Py.rfind.
  destruct (rfind_from_spec "/" p 0 (-1)) as [[Hno ->] | [_ Hno]].
  - simpl. exact Hno.
  - now rewrite Z.sub_0_r in Hno.
Qed.

Lemma startswith_contains (s : string) :
  Py.contains "/" s = false -> Py.startswith s "/" = false.
Proof.
  rewrite startswith_slash. destruct s as [|c r]; simpl; [reflexivity|].
  now intros [H _]%orb_false_iff.
Qed.

End PathProperties.

(** ** The layout of the cache *)

Section CacheLayout.

Context `{platform : Platform}.

(** C5, as the code has it. For a cache root that is not empty and does
    not end in a slash and a candidate whose file name does not start with
    one, the key is the hexadecimal SHA-256 digest of the URL in UTF-8, 64
    characters, and the path [download] works with is [root/key/filename]:
    when something exists there [download] returns that path at once, and
    when nothing does it requests the URL and can only return that path,
    with a file there. A candidate with the same URL and file name under a
    second root gets the same [key/filename] below that root, and two
    different roots give two different paths. *)
Theorem cache_key_layout
  (digest_size : digest_size_32)
  (self self' : PipInstaller) (root root' : string) (c c' : Candidate Version) :
  cache_dir self = Some root -> root <> EmptyString -> Py.endswith root "/" = false ->
  cache_dir self' = Some root' -> root' <> EmptyString -> Py.endswith root' "/" = false ->
  Py.startswith (filename c) "/" = false ->
  url c' = url c -> filename c' = filename c ->
  let key := hexlify (sha256 (Py.encode_utf8 (url c))) in
  let rel := key +:+ "/" +:+ filename c in
  String.length key = 64%nat
  /\ (forall w, os.path_exists (root +:+ "/" +:+ rel) (fs w) = true ->
        download self c w = (Return (root +:+ "/" +:+ rel), w))
  /\ (forall w, os.path_exists (root +:+ "/" +:+ rel) (fs w) = false ->
        gets (snd (download self c w)) = gets w ++ [url c]
        /\ forall p w1, download self c w = (Return p, w1) ->
             p = root +:+ "/" +:+ rel /\ is_Some (files (fs w1) !! (root +:+ "/" +:+ rel)))
  /\ (forall w, os.path_exists (root' +:+ "/" +:+ rel) (fs w) = true ->
        download self' c' w = (Return (root' +:+ "/" +:+ rel), w))
  /\ (root <> root' -> root +:+ "/" +:+ rel <> root' +:+ "/" +:+ rel).
Proof.
  intros Hroot Hne Hend Hroot' Hne' Hend' Hname Hurl Hfile key rel.
  assert (Hdigest : sha256 (Py.encode_utf8 (url c)) <> []).
  { intros Hnil. pose proof (digest_size (Py.encode_utf8 (url c))) as Hlen.
    rewrite Hnil in Hlen. discriminate. }
  destruct (hexlify_path_segment _ Hdigest) as (Hkey & Hstart & Hkend).
  assert (Hjoin : forall r, r <> EmptyString -> Py.endswith r "/" = false ->
            cache_path r c = r +:+ "/" +:+ rel).
  { intros r Hr Hre. unfold cache_path. now apply join_three. }
  assert (Hsame : forall r, cache_path r c' = cache_path r c).
  { intros r. unfold cache_path, hashed. now rewrite Hurl, Hfile. }
  split.
  { unfold key. rewrite length_hexlify, digest_size. reflexivity. }
  split.
  { intros w Hex. rewrite (download_unfold _ _ _ root Hroot). cbv zeta.
    rewrite (Hjoin root Hne Hend), Hex. reflexivity. }
  split.
  { intros w Hmiss. split.
    - rewrite (download_unfold _ _ _ root Hroot). cbv zeta.
      rewrite (Hjoin root Hne Hend), Hmiss.
      repeat match goal with
             | |- context [match ?x with _ => _ end] => destruct x
             end; reflexivity.
    - intros p w1 Hd.
      apply download_return in Hd as (r & Hr & -> & Hcase).
      assert (r = root) by congruence. subst r.
      rewrite (Hjoin root Hne Hend) in Hcase |- *. split; [reflexivity|].
      destruct Hcase as [[Hhit _] | (_ & resp & f2 & _ & _ & Hf & _ & ->)];
        [congruence|].
      simpl. eauto. }
  split.
  { intros w Hex. rewrite (download_unfold _ _ _ root' Hroot'). cbv zeta.
    rewrite Hsame, (Hjoin root' Hne' Hend'), Hex. reflexivity. }
  intros Hdiff Heq. apply Hdiff.
  apply (append_cancel_r _ _ ("/" +:+ rel)). exact Heq.
Qed.

(** The file name of a candidate built by [find] contains no slash, so it
    does not start with one. *)
Lemma built_filename_relative (c : Candidate Version) :
  built_from_link c -> Py.startswith (filename c) "/" = false.
Proof.
  intros (Hname & _). rewrite Hname. unfold link_filename.
  apply startswith_contains, basename_no_slash.
Qed.

End CacheLayout.

(** ** Properties of [install] and of the [with] block of [create] *)

Section InstallProperties.

Context `{platform : Platform}.

Lemma find_world (self : PipInstaller) (index_url : string) (w : World) :
  snd (find self index_url w)
  = set_gets (gets w ++ [urljoin index_url (Some "pip/")]) w.
Proof.
  rewrite find_unfold. cbv zeta.
  repeat match goal with
         | |- context [match ?x with _ => _ end] => destruct x
         end; reflexivity.
Qed.

Lemma download_frame (self : PipInstaller) (c : Candidate Version) (w : World) :
  procs (snd (download self c w)) = procs w
  /\ sessions (snd (download self c w)) = sessions w.
Proof.
  destruct (cache_dir self) as [root|] eqn:Hroot.
  - rewrite (download_unfold _ _ _ root Hroot). cbv zeta.
    repeat match goal with
           | |- context [match ?x with _ => _ end] => destruct x
           end; split; reflexivity.
  - rewrite download_no_cache_dir by assumption. split; reflexivity.
Qed.

(** [install], statement by statement. *)
Lemma install_unfold (self : PipInstaller) (w : World) :
  install self w
  = match find self default_index_url w with
    | (Raise e, w1) => (Raise e, w1)
    | (Return c, w1) =>
        match download self c w1 with
        | (Raise e, w2) => (Raise e, w2)
        | (Return path, w2) =>
            check_call (installer_argv self path) (installer_env path) w2
        end
    end.
Proof.
  unfold install, bind.
  destruct (find self default_index_url w) as [[c|e] w1]; [|reflexivity].
  destruct (download self c w1) as [[path|e] w2]; reflexivity.
Qed.

Lemma check_call_world (args : list string) (env : list (string * string)) (w : World) :
  procs (snd (check_call args env w)) = procs w ++ [(args, env)]
  /\ sessions (snd (check_call args env w)) = sessions w.
Proof.
  unfold check_call. destruct (run_process args env (fs w)) as [[code|e] f'].
  - destruct (Z.eqb code 0); split; reflexivity.
  - split; reflexivity.
Qed.

Lemma install_sessions (self : PipInstaller) (w : World) :
  sessions (snd (install self w)) = sessions w.
Proof.
  rewrite install_unfold.
  pose proof (find_world self default_index_url w) as Hf.
  destruct (find self default_index_url w) as [[c|e] w1]; simpl in Hf; subst w1;
    [|reflexivity].
  pose proof (download_frame self c (set_gets (gets w ++ [urljoin default_index_url (Some "pip/")]) w))
    as [_ Hd].
  destruct (download self c _) as [[path|e] w2]; simpl in Hd; [|exact Hd].
  rewrite (proj2 (check_call_world _ _ w2)). exact Hd.
Qed.

(** C8. When [install] completes, [find] and [download] have returned a
    candidate and the path of its cached file, and one process has been
    started: the program [bin/python] of the environment, with the path
    inside the command given to [-c] and as the value of [PYTHONPATH]; it
    exited with 0. When that process exits with another status, [install]
    raises [CalledProcessError] with the status, after that one start. *)
Theorem install_runs_installer_once (self : PipInstaller) (w : World) :
  (forall w', install self w = (Return tt, w') ->
     exists c w1 path w2 f',
       find self default_index_url w = (Return c, w1)
       /\ download self c w1 = (Return path, w2)
       /\ run_process (installer_argv self path) (installer_env path) (fs w2)
          = (Return 0, f')
       /\ procs w' = procs w ++ [(installer_argv self path, installer_env path)])
  /\ (forall c w1 path w2 code f',
        find self default_index_url w = (Return c, w1) ->
        download self c w1 = (Return path, w2) ->
        run_process (installer_argv self path) (installer_env path) (fs w2)
        = (Return code, f') ->
        code <> 0 ->
        fst (install self w) = Raise (CalledProcessError code)
        /\ procs (snd (install self w))
           = procs w ++ [(installer_argv self path, installer_env path)])
  /\ (environment self <> EmptyString -> Py.endswith (environment self) "/" = false ->
      forall path,
        installer_argv self path
        = [environment self +:+ "/bin/python"; "-c";
           "import pip; pip.main(['install', '" +:+ path +:+ "'])"]
        /\ installer_env path = [("PYTHONPATH", path)]).
Proof.
  assert (Hprocs : forall c w1 path w2,
            find self default_index_url w = (Return c, w1) ->
            download self c w1 = (Return path, w2) -> procs w2 = procs w).
  { intros c w1 path w2 Hf Hd.
    pose proof (find_world self default_index_url w) as Hw. rewrite Hf in Hw. simpl in Hw.
    pose proof (proj1 (download_frame self c w1)) as Hp. rewrite Hd in Hp. simpl in Hp.
    rewrite Hp, Hw. reflexivity. }
  split; [|split].
  - intros w' Hi. rewrite install_unfold in Hi.
    destruct (find self default_index_url w) as [[c|e] w1] eqn:Hf; [|discriminate].
    destruct (download self c w1) as [[path|e] w2] eqn:Hd; [|discriminate].
    exists c, w1, path, w2.
    pose proof (proj1 (check_call_world (installer_argv self path) (installer_env path) w2))
      as Hp.
    rewrite Hi in Hp. simpl in Hp.
    unfold check_call in Hi.
    destruct (run_process (installer_argv self path) (installer_env path) (fs w2))
      as [[code|e] f'] eqn:Hrun; [|discriminate].
    destruct (Z.eqb code 0) eqn:Hcode; [|discriminate].
    apply Z.eqb_eq in Hcode. subst code.
    exists f'. split; [reflexivity|]. split; [exact Hd|]. split; [reflexivity|].
    rewrite Hp. f_equal. exact (Hprocs c w1 path w2 eq_refl Hd).
  - intros c w1 path w2 code f' Hf Hd Hrun Hcode.
    rewrite install_unfold, Hf, Hd.
    pose proof (proj1 (check_call_world (installer_argv self path) (installer_env path) w2))
      as Hp.
    rewrite Hp, (Hprocs c w1 path w2 Hf Hd). split; [|reflexivity].
    unfold check_call. rewrite Hrun.
    destruct (Z.eqb_spec code 0); [contradiction | reflexivity].
  - intros Hne Hend path. unfold installer_argv, installer_env, pip_command.
    rewrite join_bin_python by assumption. split; reflexivity.
Qed.

(** C10. In [with PipInstaller(...) as installer: installer.install()] the
    session opened by the constructor is closed when the block is left,
    whether [install] completes or raises, and what [install] raised is
    raised again. [create] leaves no session open that was not open
    before it. *)
Theorem create_releases_session :
  (forall (environment0 : string) (cache_dir0 : option string) (w : World),
     let self := {| environment := environment0; cache_dir := cache_dir0;
                    session := length (sessions w) |} in
     let w0 := set_sessions (sessions w ++ [true]) w in
     sessions (snd (with_installer (PipInstaller_init environment0 cache_dir0) install w))
     = sessions w ++ [false]
     /\ fst (with_installer (PipInstaller_init environment0 cache_dir0) install w)
        = fst (install self w0))
  /\ (forall (environments cache name : string) (w : World) (i : nat),
        sessions (snd (create environments cache name w)) !! i = Some true ->
        sessions w !! i = Some true).
Proof.
  assert (Hwith : forall environment0 cache_dir0 w,
    sessions (snd (with_installer (PipInstaller_init environment0 cache_dir0) install w))
    = sessions w ++ [false]
    /\ fst (with_installer (PipInstaller_init environment0 cache_dir0) install w)
       = fst (install {| environment := environment0; cache_dir := cache_dir0;
                         session := length (sessions w) |}
                (set_sessions (sessions w ++ [true]) w))).
  { intros environment0 cache_dir0 w.
    unfold with_installer, bind, PipInstaller_init, enter, exit, close, ret.
    set (self := {| environment := environment0; cache_dir := cache_dir0;
                    session := length (sessions w) |}).
    set (w0 := set_sessions (sessions w ++ [true]) w).
    pose proof (install_sessions self w0) as Hs.
    assert (Hclose : forall l : list bool,
              l = sessions w ++ [true] ->
              <[length (sessions w) := false]> l = sessions w ++ [false]).
    { intros l ->. rewrite insert_app_r_alt by lia.
      now rewrite Nat.sub_diag. }
    destruct (install self w0) as [[[]|e] w1]; simpl in Hs |- *;
      (split; [apply Hclose; exact Hs | reflexivity]). }
  split; [exact Hwith|].
  intros environments cache name w i.
  unfold create, bind, os_path_exists, raise.
  destruct (os.path_exists (posixpath.join environments [name]) (fs w)); [simpl; tauto|].
  destruct (builder_create (posixpath.join environments [name]) (fs w)) as [[[]|e] f'];
    [|simpl; tauto].
  destruct (Hwith (posixpath.join environments [name]) (Some cache) (set_fs f' w)) as [-> _].
  simpl. intros Hi.
  destruct (decide (i < length (sessions w))%nat) as [Hlt | Hge].
  - now rewrite lookup_app_l in Hi.
  - rewrite lookup_app_r in Hi by lia.
    destruct (i - length (sessions w))%nat; simpl in Hi; [discriminate|].
    now rewrite lookup_nil in Hi.
Qed.

End InstallProperties.

(** ** The cache and the installer on the sample site *)

(** Test vectors of [hashlib.sha256]. *)
Example sha256_abc :
  hexlify (SHA256.digest (Py.encode_utf8 "abc"))
  = "ba7816bf8f01cfea414140de5dae2223b00361a396177a9cb410ff61f20015ad".
Proof. vm_compute. reflexivity. Qed.

Example sha256_empty :
  hexlify (SHA256.digest [])
  = "e3b0c44298fc1c149afbf4c8996fb92427ae41e4649b934ca495991b7852b855".
Proof. vm_compute. reflexivity. Qed.

Example sha256_two_blocks :
  hexlify (SHA256.digest
    (Py.encode_utf8 "https://files.example/packages/pip-2.0.0-py2.py3-none-any.whl"))
  = "8dfaf31e19db98d7d1e911d3022f6aae020bb91e894c30798678b650ab32fc7a".
Proof. vm_compute. reflexivity. Qed.

Lemma sha256_digest_size : digest_size_32 (platform := site).
Proof.
  intros data. change (length (SHA256.digest data) = 32%nat).
  unfold SHA256.digest.
  destruct (SHA256.blocks _ _ SHA256.H0) as [[[[[[[a b] c] d] e] f] g] h].
  rewrite !length_app. unfold SHA256.word_bytes. rewrite !length_map. reflexivity.
Qed.

Lemma download_twice_one_get_witness :
  download (platform := site) (installer0 "/envs/ok") pip_2_0_0 world1
  = (Return path_2_0_0, world1)
  /\ path_2_0_0 = cache_path (platform := site) "/cache" pip_2_0_0
  /\ gets world1 = gets world0 ++ [url pip_2_0_0]
  /\ exists resp,
       http_get (Platform := site) (gets world0) (url pip_2_0_0) = Some resp
       /\ files (fs world1) !! path_2_0_0 = Some (content resp).
Proof.
  apply (download_twice_one_get (platform := site)
           (installer0 "/envs/ok") pip_2_0_0 world0 world1 "/cache" path_2_0_0).
  - reflexivity.
  - vm_compute. reflexivity.
  - vm_compute. reflexivity.
Defined.

(** The body of the only response is what the cache holds. *)
Example download_caches_body :
  files (fs world1) !! path_2_0_0 = Some Site.wheel_bytes
  /\ gets world1 = ["https://pypi.python.org/packages/pip-2.0.0-py3-none-any.whl#md5=0a"].
Proof. split; vm_compute; reflexivity. Qed.

Lemma cache_key_layout_witness :
  let key := hexlify (sha256 (Platform := site) (Py.encode_utf8 (url pip_2_0_0))) in
  let rel := key +:+ "/" +:+ filename pip_2_0_0 in
  String.length key = 64%nat
  /\ (forall w, os.path_exists ("/cache" +:+ "/" +:+ rel) (fs w) = true ->
        download (platform := site) (installer0 "/envs/ok") pip_2_0_0 w
        = (Return ("/cache" +:+ "/" +:+ rel), w))
  /\ (forall w, os.path_exists ("/cache" +:+ "/" +:+ rel) (fs w) = false ->
        gets (snd (download (platform := site) (installer0 "/envs/ok") pip_2_0_0 w))
        = gets w ++ [url pip_2_0_0]
        /\ forall p w1,
             download (platform := site) (installer0 "/envs/ok") pip_2_0_0 w = (Return p, w1) ->
             p = "/cache" +:+ "/" +:+ rel
             /\ is_Some (files (fs w1) !! ("/cache" +:+ "/" +:+ rel)))
  /\ (forall w, os.path_exists ("/srv/cache" +:+ "/" +:+ rel) (fs w) = true ->
        download (platform := site) installer1 pip_2_0_0 w
        = (Return ("/srv/cache" +:+ "/" +:+ rel), w))
  /\ ("/cache" <> "/srv/cache" ->
      "/cache" +:+ "/" +:+ rel <> "/srv/cache" +:+ "/" +:+ rel).
Proof.
  apply (cache_key_layout (platform := site) sha256_digest_size
           (installer0 "/envs/ok") installer1 "/cache" "/srv/cache" pip_2_0_0 pip_2_0_0).
  - reflexivity.
  - discriminate.
  - vm_compute. reflexivity.
  - reflexivity.
  - discriminate.
  - vm_compute. reflexivity.
  - vm_compute. reflexivity.
  - reflexivity.
  - reflexivity.
Defined.

(** A file name that is an absolute path replaces root and key: [download]
    finds the file of that name and returns it, outside the cache. *)
Lemma cache_key_layout_counterexample :
  download (platform := site) (installer0 "/envs/ok") pip_absolute world_absolute
  = (Return "/srv/pip-1.0-py3-none-any.whl", world_absolute)
  /\ "/srv/pip-1.0-py3-none-any.whl"
     <> "/cache" +:+ "/"
        +:+ hexlify (sha256 (Platform := site) (Py.encode_utf8 (url pip_absolute)))
        +:+ "/" +:+ filename pip_absolute.
Proof.
  split; [vm_compute; reflexivity|].
  vm_compute. discriminate.
Qed.

(** The same candidate under the two roots: one relative path, two places. *)
Example cache_paths_of_two_roots :
  cache_path (platform := site) "/cache" pip_2_0_0 = path_2_0_0
  /\ cache_path (platform := site) "/srv/cache" pip_2_0_0
     = "/srv/cache/8dac51446613118eda0e9e3401ac21b6fa9aa817626d846980c0c5e8e3fa545b/pip-2.0.0-py3-none-any.whl".
Proof. split; vm_compute; reflexivity. Qed.

Lemma download_http_error_keeps_cache_witness :
  download (platform := site) (installer0 "/envs/ok") pip_gone world0
  = (Raise (HTTPError 404), set_gets (gets world0 ++ [url pip_gone]) world0)
  /\ fs (snd (download (platform := site) (installer0 "/envs/ok") pip_gone world0))
     = fs world0.
Proof.
  apply (download_http_error_keeps_cache (platform := site)
           (installer0 "/envs/ok") pip_gone world0 "/cache"
           {| status_code := 404; text := "Not Found";
              content := Py.encode_utf8 "Not Found" |}).
  - reflexivity.
  - vm_compute. reflexivity.
  - vm_compute. reflexivity.
  - simpl. lia.
Defined.

(** A response with status 304 is not a 2xx response, yet [download]
    returns and writes its (empty) body into the cache. *)
Lemma download_non_2xx_counterexample :
  http_get (Platform := site) (gets world0) (url pip_stale)
  = Some {| status_code := 304; text := EmptyString; content := [] |}
  /\ ~ (200 <= 304 < 300)
  /\ os.path_exists (cache_path (platform := site) "/cache" pip_stale) (fs world0) = false
  /\ fst (download (platform := site) (installer0 "/envs/ok") pip_stale world0)
     = Return (cache_path (platform := site) "/cache" pip_stale)
  /\ files (fs (snd (download (platform := site) (installer0 "/envs/ok") pip_stale world0)))
       !! cache_path (platform := site) "/cache" pip_stale = Some []
  /\ files (fs world0) !! cache_path (platform := site) "/cache" pip_stale = None.
Proof.
  split; [vm_compute; reflexivity|].
  split; [lia|].
  repeat split; vm_compute; reflexivity.
Qed.


Lemma install_runs_installer_once_witness :
  (exists c w1 path w2 f',
     find (platform := site) (installer0 "/envs/ok") default_index_url world0 = (Return c, w1)
     /\ download (platform := site) (installer0 "/envs/ok") c w1 = (Return path, w2)
     /\ run_process (Platform := site)
          (installer_argv (installer0 "/envs/ok") path) (installer_env path) (fs w2)
        = (Return 0, f')
     /\ procs (snd (install (platform := site) (installer0 "/envs/ok") world0))
        = procs world0 ++ [(installer_argv (installer0 "/envs/ok") path, installer_env path)])
  /\ fst (install (platform := site) (installer0 "/envs/broken") world0)
     = Raise (CalledProcessError 1)
  /\ procs (snd (install (platform := site) (installer0 "/envs/broken") world0))
     = procs world0
       ++ [(installer_argv (installer0 "/envs/broken") path_2_0_0, installer_env path_2_0_0)]
  /\ installer_argv (installer0 "/envs/ok") path_2_0_0
     = ["/envs/ok" +:+ "/bin/python"; "-c";
        "import pip; pip.main(['install', '" +:+ path_2_0_0 +:+ "'])"].
Proof.
  destruct (install_runs_installer_once (platform := site) (installer0 "/envs/ok") world0)
    as (Hok & _ & Hargv).
  destruct (install_runs_installer_once (platform := site) (installer0 "/envs/broken") world0)
    as (_ & Hfail & _).
  split; [|split; [|split]].
  - apply (Hok (snd (install (platform := site) (installer0 "/envs/ok") world0))).
    vm_compute. reflexivity.
  - apply (Hfail pip_2_0_0
             (set_gets ["https://pypi.python.org/simple/pip/"] world0) path_2_0_0
             (snd (download (platform := site) (installer0 "/envs/broken") pip_2_0_0
                     (set_gets ["https://pypi.python.org/simple/pip/"] world0)))
             1 (fs (snd (download (platform := site) (installer0 "/envs/broken") pip_2_0_0
                     (set_gets ["https://pypi.python.org/simple/pip/"] world0)))));
      try (vm_compute; reflexivity). discriminate.
  - apply (Hfail pip_2_0_0
             (set_gets ["https://pypi.python.org/simple/pip/"] world0) path_2_0_0
             (snd (download (platform := site) (installer0 "/envs/broken") pip_2_0_0
                     (set_gets ["https://pypi.python.org/simple/pip/"] world0)))
             1 (fs (snd (download (platform := site) (installer0 "/envs/broken") pip_2_0_0
                     (set_gets ["https://pypi.python.org/simple/pip/"] world0)))));
      try (vm_compute; reflexivity). discriminate.
  - apply (Hargv ltac:(discriminate) ltac:(vm_compute; reflexivity) path_2_0_0).
Defined.

(** The whole run on the sample site: two requests, one process. *)
Example install_on_site :
  let '(r, w) := install (platform := site) (installer0 "/envs/ok") world0 in
  r = Return tt
  /\ gets w = ["https://pypi.python.org/simple/pip/";
               "https://pypi.python.org/packages/pip-2.0.0-py3-none-any.whl#md5=0a"]
  /\ procs w
     = [(["/envs/ok/bin/python"; "-c";
          "import pip; pip.main(['install', '/cache/8dac51446613118eda0e9e3401ac21b6fa9aa817626d846980c0c5e8e3fa545b/pip-2.0.0-py3-none-any.whl'])"],
         [("PYTHONPATH", path_2_0_0)])].
Proof. vm_compute. repeat split. Qed.

Lemma create_releases_session_witness :
  (sessions (snd (with_installer (PipInstaller_init "/envs/broken" (Some "/cache"))
                    (install (platform := site)) world0))
   = sessions world0 ++ [false]
   /\ fst (with_installer (PipInstaller_init "/envs/broken" (Some "/cache"))
             (install (platform := site)) world0)
      = fst (install (platform := site)
               {| environment := "/envs/broken"; cache_dir := Some "/cache";
                  session := length (sessions world0) |}
               (set_sessions (sessions world0 ++ [true]) world0)))
  /\ sessions (set_sessions [true] world0) !! 0%nat = Some true.
Proof.
  destruct (@create_releases_session site) as [Hwith Hcreate].
  split.
  - apply (Hwith "/envs/broken" (Some "/cache") world0).
  - apply (Hcreate "/envs" "/cache" "broken" (set_sessions [true] world0) 0%nat).
    vm_compute. reflexivity.
Defined.

(** [create] for an environment whose interpreter fails: the error of
    [install] comes out, and the session is closed. *)
Example create_broken_environment :
  let '(r, w) := create (platform := site) "/envs" "/cache" "broken" world0 in
  r = Raise (CalledProcessError 1) /\ sessions w = [false].
Proof. vm_compute. split; reflexivity. Qed.

(** ** Further properties of the installer *)

Section InstallerExtras.

Context `{platform : Platform}.

(** X1. Whatever [find] returns or raises, it changes no file, no
    directory, no session and no process, and it adds at most one request to
    those made, the one for the page of pip below the index URL. *)
Theorem find_only_requests (self : PipInstaller) (index_url : string) (w : World) :
  fs (snd (find self index_url w)) = fs w
  /\ sessions (snd (find self index_url w)) = sessions w
  /\ procs (snd (find self index_url w)) = procs w
  /\ exists extra,
       gets (snd (find self index_url w)) = gets w ++ extra
       /\ (length extra <= 1)%nat
       /\ forall u, In u extra -> u = urljoin index_url (Some "pip/").
Proof.
  rewrite find_world. repeat split.
  exists [urljoin index_url (Some "pip/")]. repeat split.
  - simpl. lia.
  - intros u [<- | []]. reflexivity.
Qed.

(** X2. Links whose file name does not end in [.whl] have no influence on
    what the loop of [find] builds or raises: two lists of links with the
    same wheel links, in the same order, give the same result. *)
Theorem candidates_depend_on_wheel_links (ls1 ls2 : list string) :
  List.filter is_wheel ls1 = List.filter is_wheel ls2 ->
  candidates_loop ls1 [] = candidates_loop ls2 [].
Proof.
  assert (Hfilter : forall ls, candidates_loop ls [] = candidates_loop (List.filter is_wheel ls) []).
  { induction ls as [|l rest IH]; [reflexivity|].
    simpl List.filter. destruct (is_wheel l) eqn:Hw.
    - rewrite !candidates_loop_cons, IH. reflexivity.
    - rewrite candidates_loop_cons, (proj2 (candidate_step_none l) Hw). exact IH. }
  intros Heq. rewrite (Hfilter ls1), (Hfilter ls2), Heq. reflexivity.
Qed.

Lemma candidates_loop_invalid_version (ls : list string) (part : string) :
  candidates_loop ls [] = Raise (InvalidVersion part) ->
  exists link, In link ls /\ is_wheel link = true
    /\ Py.split "-" (link_filename link) !! 1%nat = Some part
    /\ version_parse part = None.
Proof.
  induction ls as [|l rest IH]; [discriminate|].
  rewrite candidates_loop_cons. unfold candidate_step.
  destruct (is_wheel l) eqn:Hw; simpl.
  - destruct (Py.split "-" (link_filename l) !! 1%nat) as [p|] eqn:Hs; [|discriminate].
    destruct (version_parse p) as [v|] eqn:Hv.
    + destruct (candidates_loop rest []) as [cs|e]; [discriminate|].
      intros [= ->]. destruct (IH eq_refl) as (link & Hin & Hrest).
      exists link. split; [now right | exact Hrest].
    + intros [= ->]. exists l. repeat split; try assumption. now left.
  - intros Hrest. destruct (IH Hrest) as (link & Hin & Hrest').
    exists link. split; [now right | exact Hrest'].
Qed.

(** X3. The causes of two errors of [find]. A response with a status from
    400 to 599 makes [find] raise [HTTPError] with that status whatever the
    page says: the page is not looked at. And when [find] raises
    [InvalidVersion] for a token, the response passed the status check and
    the token is the second hyphen-delimited token of a wheel link of the
    page that the version parser rejects. *)
Theorem find_error_causes (self : PipInstaller) (index_url : string) (w : World) :
  let simple := urljoin index_url (Some "pip/") in
  (forall resp,
     http_get (gets w) simple = Some resp ->
     400 <= status_code resp < 600 ->
     fst (find self index_url w) = Raise (HTTPError (status_code resp)))
  /\ (forall part,
        fst (find self index_url w) = Raise (InvalidVersion part) ->
        exists resp link,
          http_get (gets w) simple = Some resp
          /\ status_ok resp
          /\ In link (links (feed (LinkExtractor_init simple) (text resp)))
          /\ is_wheel link = true
          /\ Py.split "-" (link_filename link) !! 1%nat = Some part
          /\ version_parse part = None).
Proof.
  intros simple. subst simple. rewrite find_unfold. cbv zeta.
  set (simple := urljoin index_url (Some "pip/")).
  split.
  - intros resp -> Hst.
    destruct (Z.leb 400 (status_code resp) && Z.ltb (status_code resp) 600) eqn:Ht;
      [reflexivity|].
    apply status_ok_test in Ht. unfold status_ok in Ht. contradiction.
  - intros part.
    destruct (http_get (gets w) simple) as [resp|] eqn:Hget; [|discriminate].
    destruct (Z.leb 400 (status_code resp) && Z.ltb (status_code resp) 600) eqn:Hst;
      [discriminate|].
    apply status_ok_test in Hst.
    destruct (candidates_loop _ []) as [cs|e] eqn:Hloop.
    + destruct (bool_decide (cs = [])); [discriminate|].
      destruct (sorted_reverse cs !! 0%nat); discriminate.
    + simpl. intros [= ->].
      apply candidates_loop_invalid_version in Hloop as (link & Hin & Hw & Hs & Hv).
      now exists resp, link.
Qed.

(** X4. [handle_starttag] only appends. After any start tags handled one
    after the other, the links collected before are still in front, in their
    order, followed by the links of the internal anchors among the tags, in
    the order of the tags; the base URL is never changed. *)
Theorem handle_starttag_appends
  (self : LinkExtractor) (events1 events2 : list (string * attrs_t)) :
  links (dispatch (dispatch self events1) events2)
  = links self ++ extracted (base_url self) events1 ++ extracted (base_url self) events2
  /\ base_url (dispatch (dispatch self events1) events2) = base_url self.
Proof.
  destruct (dispatch_links (dispatch self events1) events2) as [-> ->].
  destruct (dispatch_links self events1) as [-> ->].
  now rewrite <- app_assoc.
Qed.

(** [os.mkdir] and [os.makedirs] leave the files alone and only add
    directories. *)
Lemma mkdir_return (name : string) (f f' : FS) :
  os.mkdir name f = Return f' -> files f' = files f /\ dirs f' = {[name]} ∪ dirs f.
Proof.
  unfold os.mkdir.
  repeat match goal with |- context [if ?b then _ else _] => destruct b end;
    try discriminate.
  intros [= <-]. split; reflexivity.
Qed.

Lemma makedirs_rec_return (fuel : nat) (name : string) (f f' : FS) :
  os.makedirs_rec fuel name f = Return f' -> files f' = files f /\ dirs f ⊆ dirs f'.
Proof.
  revert name f f'. induction fuel as [|fuel IH]; intros name f f'.
  - simpl.
    destruct (String.eqb (posixpath.basename name) EmptyString);
      match goal with |- context [if ?b then _ else _] => destruct b end;
      try discriminate;
      intros Hm; apply mkdir_return in Hm as [-> ->]; split; set_solver.
  - simpl.
    destruct (String.eqb (posixpath.basename name) EmptyString);
      match goal with |- context [if ?b then _ else _] => destruct b end;
      try (intros Hm; apply mkdir_return in Hm as [-> ->]; split; set_solver);
      match goal with
      | |- context [os.makedirs_rec fuel ?h f] =>
          pose proof (IH h f) as IHh; destruct (os.makedirs_rec fuel h f) as [f1|e]
      end;
      try (destruct e; try discriminate);
      repeat match goal with |- context [if ?b then _ else _] => destruct b end;
      try discriminate;
      try (intros [= <-]; first [apply IHh; reflexivity | split; set_solver]);
      try (intros Hm; apply mkdir_return in Hm as [-> ->];
           first [destruct (IHh f1 eq_refl) as [-> Hsub]; split; set_solver
                 | split; set_solver]).
Qed.

(** What [download] can do to the file system, whatever its outcome. *)
Lemma download_fs (self : PipInstaller) (c : Candidate Version) (w : World) (root : string) :
  cache_dir self = Some root ->
  dirs (fs w) ⊆ dirs (fs (snd (download self c w)))
  /\ (files (fs (snd (download self c w))) = files (fs w)
      \/ (os.path_exists (cache_path root c) (fs w) = false
          /\ exists data,
               files (fs (snd (download self c w)))
               = <[cache_path root c := data]> (files (fs w)))).
Proof.
  intros Hroot. rewrite (download_unfold _ _ _ root Hroot). cbv zeta.
  destruct (os.path_exists (cache_path root c) (fs w)) eqn:Hex; [split; [set_solver | now left]|].
  destruct (http_get (gets w) (url c)) as [resp|]; [|split; [set_solver | now left]].
  destruct (Z.leb 400 (status_code resp) && Z.ltb (status_code resp) 600);
    [split; [set_solver | now left]|].
  assert (Hdir : forall f1,
            (if os.path_exists (posixpath.dirname (cache_path root c)) (fs w)
             then Return (fs w)
             else os.makedirs (posixpath.dirname (cache_path root c)) (fs w)) = Return f1 ->
            files f1 = files (fs w) /\ dirs (fs w) ⊆ dirs f1).
  { intros f1.
    destruct (os.path_exists (posixpath.dirname (cache_path root c)) (fs w)).
    - intros Heq. injection Heq as Heq. subst f1. split; [reflexivity | set_solver].
    - apply makedirs_rec_return. }
  destruct (if os.path_exists _ (fs w) then _ else _) as [f1|e];
    [|split; [set_solver | now left]].
  destruct (Hdir f1 eq_refl) as [Hfiles Hdirs].
  destruct (os.write_file (cache_path root c) (content resp) f1) as [f2|e] eqn:Hw.
  - simpl. unfold os.write_file in Hw.
    repeat match type of Hw with (if ?b then _ else _) = _ => destruct b end;
      try discriminate.
    injection Hw as <-. simpl. split; [exact Hdirs|].
    right. split; [reflexivity|]. exists (content resp). now rewrite Hfiles.
  - simpl. split; [exact Hdirs | now left].
Qed.

(** X5. [download] never removes or changes what is there: every file that
    exists before the call exists afterwards with the same bytes, and every
    directory is still a directory, whether the call returns or raises. *)
Theorem download_keeps_existing_entries
  (self : PipInstaller) (c : Candidate Version) (w : World) (q : string) :
  (forall data, files (fs w) !! q = Some data ->
                files (fs (snd (download self c w))) !! q = Some data)
  /\ (q ∈ dirs (fs w) -> q ∈ dirs (fs (snd (download self c w)))).
Proof.
  destruct (cache_dir self) as [root|] eqn:Hroot.
  2:{ rewrite download_no_cache_dir by assumption. simpl. split; auto. }
  destruct (download_fs self c w root Hroot) as [Hdirs Hfiles].
  split; [|set_solver].
  intros data Hq. destruct Hfiles as [-> | (Hmiss & data' & ->)]; [exact Hq|].
  rewrite lookup_insert_ne; [exact Hq|].
  intros <-. unfold os.path_exists in Hmiss.
  apply orb_false_iff in Hmiss as [Hf _]. apply bool_decide_eq_false in Hf.
  apply Hf. eauto.
Qed.

(** X6. [download] makes at most one request, for the URL of the candidate,
    and none when the file is in the cache; it starts no process and opens
    or closes no session. *)
Theorem download_requests_at_most_once
  (self : PipInstaller) (c : Candidate Version) (w : World) :
  (gets (snd (download self c w)) = gets w
   \/ gets (snd (download self c w)) = gets w ++ [url c])
  /\ (forall root, cache_dir self = Some root ->
        os.path_exists (cache_path root c) (fs w) = true ->
        gets (snd (download self c w)) = gets w)
  /\ procs (snd (download self c w)) = procs w
  /\ sessions (snd (download self c w)) = sessions w.
Proof.
  destruct (download_frame self c w) as [Hp Hs].
  split; [|split; [|split; assumption]].
  - destruct (cache_dir self) as [root|] eqn:Hroot.
    + rewrite (download_unfold _ _ _ root Hroot). cbv zeta.
      repeat match goal with
             | |- context [match ?x with _ => _ end] => destruct x
             end; simpl; auto.
    + rewrite download_no_cache_dir by assumption. now left.
  - intros root Hroot Hex.
    rewrite (download_unfold _ _ _ root Hroot). cbv zeta. now rewrite Hex.
Qed.

(** X7. An installer built without a cache directory (the default of the
    constructor) cannot download: [download] raises [TypeError] without a
    request, and [install] raises it as soon as [find] has returned, with
    the request of [find] as its only effect. *)
Theorem install_without_cache_dir (self : PipInstaller) (w : World) :
  cache_dir self = None ->
  (forall c w0, download self c w0 = (Raise TypeError, w0))
  /\ (forall c w1, find self default_index_url w = (Return c, w1) ->
        install self w = (Raise TypeError, w1)
        /\ procs w1 = procs w /\ fs w1 = fs w
        /\ gets w1 = gets w ++ [urljoin default_index_url (Some "pip/")]).
Proof.
  intros Hnone. split.
  - intros c w0. now apply download_no_cache_dir.
  - intros c w1 Hf. rewrite install_unfold, Hf, download_no_cache_dir by assumption.
    pose proof (find_world self default_index_url w) as Hw. rewrite Hf in Hw.
    simpl in Hw. subst w1. repeat split.
Qed.

(** X8. [install] is [find], then [download], then the process. When [find]
    raises, [install] raises the same exception and has done what [find] did
    and no more; when [download] raises, likewise, and no process has been
    started; when both return and the process exits with 0, [install]
    completes, with the file system as the process left it. *)
Theorem install_composition (self : PipInstaller) (w : World) :
  (forall e w1, find self default_index_url w = (Raise e, w1) ->
     install self w = (Raise e, w1) /\ procs w1 = procs w /\ fs w1 = fs w)
  /\ (forall c w1 e w2,
        find self default_index_url w = (Return c, w1) ->
        download self c w1 = (Raise e, w2) ->
        install self w = (Raise e, w2) /\ procs w2 = procs w)
  /\ (forall c w1 path w2 f',
        find self default_index_url w = (Return c, w1) ->
        download self c w1 = (Return path, w2) ->
        run_process (installer_argv self path) (installer_env path) (fs w2) = (Return 0, f') ->
        install self w
        = (Return tt,
           set_fs f' (set_procs (procs w2 ++ [(installer_argv self path, installer_env path)]) w2))).
Proof.
  split; [|split].
  - intros e w1 Hf. rewrite install_unfold, Hf.
    pose proof (find_world self default_index_url w) as Hw. rewrite Hf in Hw.
    simpl in Hw. subst w1. repeat split.
  - intros c w1 e w2 Hf Hd. rewrite install_unfold, Hf, Hd. split; [reflexivity|].
    pose proof (find_world self default_index_url w) as Hw. rewrite Hf in Hw. simpl in Hw.
    pose proof (proj1 (download_frame self c w1)) as Hp. rewrite Hd in Hp. simpl in Hp.
    rewrite Hp, Hw. reflexivity.
  - intros c w1 path w2 f' Hf Hd Hrun. rewrite install_unfold, Hf, Hd.
    unfold check_call. rewrite Hrun. reflexivity.
Qed.

(** X9. The [with] block closes the session for every body that does not
    shorten the table of sessions: when the block is left the session of the
    installer is closed, the other sessions are as the body left them, a
    body that completes makes the block complete, and what the body raises
    is raised again. *)
Theorem with_installer_closes
  (body : PipInstaller -> M unit) (environment0 : string) (cache_dir0 : option string)
  (w : World) :
  let self := {| environment := environment0; cache_dir := cache_dir0;
                 session := length (sessions w) |} in
  let after_body := body self (set_sessions (sessions w ++ [true]) w) in
  let result := with_installer (PipInstaller_init environment0 cache_dir0) body w in
  (length (sessions w) < length (sessions (snd after_body)))%nat ->
  sessions (snd result) !! length (sessions w) = Some false
  /\ (forall i, i <> length (sessions w) ->
        sessions (snd result) !! i = sessions (snd after_body) !! i)
  /\ fst result = fst after_body.
Proof.
  intros self after_body result Hlen. subst result after_body.
  unfold with_installer, bind, PipInstaller_init, enter, exit, close, ret.
  fold self.
  destruct (body self (set_sessions (sessions w ++ [true]) w)) as [[[]|e] w1];
    simpl in Hlen |- *.
  - split; [now apply list_lookup_insert_eq|].
    split; [|reflexivity]. intros i Hi. now apply list_lookup_insert_ne.
  - split; [now apply list_lookup_insert_eq|].
    split; [|reflexivity]. intros i Hi. now apply list_lookup_insert_ne.
Qed.

End InstallerExtras.

(** ** Directory and base name of a joined path *)

Section JoinedPaths.

Lemma rfind_from_absent (c : ascii) (s : string) (i found : Z) :
  Py.contains c s = false -> Py.rfind_from c s i found = found.
Proof.
  revert i found. induction s as [|a r IH]; intros i found; simpl; [reflexivity|].
  intros [Ha Hr]%orb_false_iff. rewrite Ha. now apply IH.
Qed.

Lemma rfind_from_append (c : ascii) (a n : string) (i found : Z) :
  Py.contains c n = false ->
  Py.rfind_from c (a +:+ String c n) i found = i + Z.of_nat (String.length a).
Proof.
  intros Hn. revert i found. induction a as [|x a IH]; intros i found.
  - rewrite append_nil_l. simpl. rewrite Ascii.eqb_refl.
    rewrite rfind_from_absent by assumption. lia.
  - rewrite append_cons. simpl. rewrite IH. lia.
Qed.

Lemma take_chars_append (a b : string) (k : nat) :
  Py.take_chars (String.length a + k) (a +:+ b) = a +:+ Py.take_chars k b.
Proof.
  induction a as [|x a IH]; [reflexivity|].
  rewrite !append_cons. simpl. now rewrite IH.
Qed.

Lemma drop_chars_append (a b : string) (k : nat) :
  Py.drop_chars (String.length a + k) (a +:+ b) = Py.drop_chars k b.
Proof.
  induction a as [|x a IH]; [reflexivity|].
  rewrite append_cons. simpl. exact IH.
Qed.

Lemma all_chars_append (c : ascii) (a b : string) :
  Py.all_chars c (a +:+ b) = Py.all_chars c a && Py.all_chars c b.
Proof.
  induction a as [|x a IH]; [reflexivity|].
  rewrite append_cons. simpl. rewrite IH. now rewrite andb_assoc.
Qed.

Lemma all_chars_last (c x : ascii) (a : string) :
  Py.last_char a = Some x -> Ascii.eqb x c = false -> Py.all_chars c a = false.
Proof.
  induction a as [|y a IH]; [discriminate|]. simpl.
  destruct (Py.last_char a) as [z|] eqn:Hl.
  - intros [= ->] Hx. rewrite (IH eq_refl Hx). apply andb_false_r.
  - intros [= ->] Hx. now rewrite Hx.
Qed.

Lemma rstrip_append_char (c : ascii) (a : string) :
  Py.rstrip c (a +:+ String c EmptyString) = Py.rstrip c a.
Proof.
  induction a as [|x a IH].
  - rewrite append_nil_l. simpl. now rewrite Ascii.eqb_refl.
  - rewrite append_cons. simpl. now rewrite IH.
Qed.

Lemma rstrip_last (c x : ascii) (a : string) :
  Py.last_char a = Some x -> Ascii.eqb x c = false -> Py.rstrip c a = a.
Proof.
  induction a as [|y a IH]; [discriminate|]. simpl.
  destruct (Py.last_char a) as [z|] eqn:Hl.
  - intros [= ->] Hx. rewrite (IH eq_refl Hx).
    destruct a; [discriminate | reflexivity].
  - intros [= ->] Hx. apply last_char_none in Hl. subst a. simpl. now rewrite Hx.
Qed.

Lemma contains_last (c : ascii) (s : string) (x : ascii) :
  Py.contains c s = false -> Py.last_char s = Some x -> Ascii.eqb x c = false.
Proof.
  induction s as [|y s IH]; [discriminate|]. simpl.
  intros [Hy Hs]%orb_false_iff.
  destruct (Py.last_char s) as [z|].
  - intros [= ->]. now apply IH.
  - intros [= ->]. exact Hy.
Qed.

(** [os.path.dirname] and [os.path.basename] of [d/n], when [d] does not end
    in a slash and [n] contains none. *)
Lemma dirname_basename_join (d n : string) (x : ascii) :
  Py.last_char d = Some x -> Ascii.eqb x "/" = false -> Py.contains "/" n = false ->
  posixpath.dirname (d +:+ "/" +:+ n) = d /\ posixpath.basename (d +:+ "/" +:+ n) = n.
Proof.
  intros Hlast Hx Hn.
  change (d +:+ "/" +:+ n) with (d +:+ String "/" n).
  unfold posixpath.dirname, posixpath.basename, Py.rfind.
  rewrite rfind_from_append by assumption.
  replace (Z.to_nat (0 + Z.of_nat (String.length d) + 1)) with (String.length d + 1)%nat by lia.
  rewrite take_chars_append, drop_chars_append.
  change (Py.take_chars 1 (String "/" n)) with (String "/" (Py.take_chars 0 n)).
  change (Py.drop_chars 1 (String "/" n)) with (Py.drop_chars 0 n).
  replace (Py.take_chars 0 n) with EmptyString by (destruct n; reflexivity).
  replace (Py.drop_chars 0 n) with n by (destruct n; reflexivity).
  split; [|reflexivity].
  rewrite all_chars_append, (all_chars_last _ _ _ Hlast Hx). simpl.
  destruct (String.eqb_spec (d +:+ "/") EmptyString) as [He|_].
  - destruct d; discriminate.
  - simpl. rewrite rstrip_append_char. now apply rstrip_last with x.
Qed.

Lemma hexlify_no_slash (digest : list byte) : Py.contains "/" (hexlify digest) = false.
Proof.
  induction digest as [|b r IH]; [reflexivity|].
  simpl. now rewrite hex_digit_high, hex_digit_low, IH.
Qed.

Lemma endswith_last_char (s : string) :
  Py.endswith s "/" = false -> s <> EmptyString ->
  exists x, Py.last_char s = Some x /\ Ascii.eqb x "/" = false.
Proof.
  rewrite endswith_slash. intros He Hne.
  destruct (Py.last_char s) as [x|] eqn:Hl.
  - now exists x.
  - apply last_char_none in Hl. contradiction.
Qed.

(** With its parent there, [os.makedirs] is [os.mkdir]. *)
Lemma makedirs_parent_exists (name : string) (f : FS) :
  posixpath.basename name <> EmptyString ->
  os.path_exists (posixpath.dirname name) f = true ->
  os.makedirs name f = os.mkdir name f.
Proof.
  intros Hbase Hparent. unfold os.makedirs.
  destruct (String.eqb_spec (posixpath.basename name) EmptyString) as [|_]; [contradiction|].
  destruct (String.length name); simpl;
    destruct (String.eqb_spec (posixpath.basename name) EmptyString) as [|_];
    try contradiction; rewrite Hparent, !andb_false_r; reflexivity.
Qed.

End JoinedPaths.

Section DownloadFootprint.

Context `{platform : Platform}.

Lemma write_file_effect (p : string) (data : list byte) (f f' : FS) :
  os.write_file p data f = Return f' ->
  files f' = <[p := data]> (files f) /\ dirs f' = dirs f.
Proof.
  unfold os.write_file.
  repeat match goal with |- context [if ?b then _ else _] => destruct b end;
    try discriminate.
  intros [= <-]. split; reflexivity.
Qed.

(** X10. What a miss leaves behind. With the cache root an existing
    directory, no regular file at [root/key], and a candidate built by
    [find], a call of [download] that finds nothing at [root/key/filename]
    and returns has returned that path, has made the one request for the
    URL, and has added to the file system exactly the directory [root/key]
    (if it was not there) and the file at the path, holding the body of the
    response. *)
Theorem download_miss_footprint
  (digest_size : digest_size_32)
  (self : PipInstaller) (c : Candidate Version) (w w1 : World) (root p : string) :
  let key_dir := root +:+ "/" +:+ hashed c in
  cache_dir self = Some root ->
  root <> EmptyString -> Py.endswith root "/" = false ->
  root ∈ dirs (fs w) -> files (fs w) !! root = None ->
  files (fs w) !! key_dir = None ->
  built_from_link c ->
  os.path_exists (key_dir +:+ "/" +:+ filename c) (fs w) = false ->
  download self c w = (Return p, w1) ->
  p = key_dir +:+ "/" +:+ filename c
  /\ gets w1 = gets w ++ [url c]
  /\ dirs (fs w1) = {[key_dir]} ∪ dirs (fs w)
  /\ exists resp,
       http_get (gets w) (url c) = Some resp
       /\ files (fs w1) = <[p := content resp]> (files (fs w)).
Proof.
  intros key_dir Hroot Hne Hend Hrootdir Hrootfile Hkeyfile Hbuilt Hmiss Hd.
  set (path := key_dir +:+ "/" +:+ filename c) in *.
  assert (Hnoslash : Py.contains "/" (filename c) = false).
  { destruct Hbuilt as [-> _]. apply basename_no_slash. }
  assert (Hdigest : sha256 (Py.encode_utf8 (url c)) <> []).
  { intros Hnil. pose proof (digest_size (Py.encode_utf8 (url c))) as Hlen.
    rewrite Hnil in Hlen. discriminate. }
  destruct (hexlify_path_segment _ Hdigest) as (Hkey & Hkstart & Hkend).
  fold (hashed c) in Hkey, Hkstart, Hkend.
  assert (Hpath : cache_path root c = path).
  { unfold cache_path, path, key_dir.
    rewrite join_three; try assumption; [|now apply startswith_contains].
    now rewrite append_assoc. }
  destruct (endswith_last_char root Hend Hne) as (xr & Hxr & Hxr').
  destruct (endswith_last_char (hashed c) Hkend Hkey) as (xk & Hxk & Hxk').
  assert (Hklast : Py.last_char key_dir = Some xk).
  { unfold key_dir. rewrite last_char_append by discriminate.
    change ("/" +:+ hashed c) with (String "/" (hashed c)). simpl. now rewrite Hxk. }
  destruct (dirname_basename_join root (hashed c) xr Hxr Hxr' (hexlify_no_slash _))
    as [Hdir_key Hbase_key]. fold key_dir in Hdir_key, Hbase_key.
  destruct (dirname_basename_join key_dir (filename c) xk Hklast Hxk' Hnoslash)
    as [Hdir_path _]. fold path in Hdir_path.
  assert (Hroot_exists : os.path_exists root (fs w) = true).
  { unfold os.path_exists. rewrite (bool_decide_eq_true_2 (root ∈ dirs (fs w))) by assumption.
    apply orb_true_r. }
  (* the state of the directories before the file is written *)
  assert (Hmk : (if os.path_exists key_dir (fs w) then Return (fs w)
                 else os.makedirs key_dir (fs w))
                = Return {| files := files (fs w);
                            dirs := if os.path_exists key_dir (fs w) then dirs (fs w)
                                    else {[key_dir]} ∪ dirs (fs w) |}).
  { destruct (os.path_exists key_dir (fs w)) eqn:Hkex.
    - destruct (fs w); reflexivity.
    - rewrite makedirs_parent_exists; [|now rewrite Hbase_key|now rewrite Hdir_key].
      unfold os.mkdir. rewrite Hkex, Hdir_key, Hrootfile.
      rewrite (bool_decide_eq_false_2 (is_Some None)) by (intros [? ?]; discriminate).
      rewrite (bool_decide_eq_true_2 (root ∈ dirs (fs w))) by assumption.
      simpl. rewrite !andb_false_r. reflexivity. }
  assert (Hdirs : (if os.path_exists key_dir (fs w) then dirs (fs w)
                   else {[key_dir]} ∪ dirs (fs w)) = {[key_dir]} ∪ dirs (fs w)).
  { destruct (os.path_exists key_dir (fs w)) eqn:Hkex; [|reflexivity].
    unfold os.path_exists in Hkex. rewrite Hkeyfile in Hkex.
    rewrite (bool_decide_eq_false_2 (is_Some None)) in Hkex by (intros [? ?]; discriminate).
    simpl in Hkex. apply bool_decide_eq_true in Hkex.
    apply leibniz_equiv. intros q. rewrite elem_of_union, elem_of_singleton.
    split; [tauto | intros [-> | ?]; assumption]. }
  rewrite Hdirs in Hmk.
  rewrite (download_unfold _ _ _ root Hroot) in Hd. cbv zeta in Hd.
  rewrite Hpath, Hmiss in Hd.
  destruct (http_get (gets w) (url c)) as [resp|]; [|discriminate].
  destruct (Z.leb 400 (status_code resp) && Z.ltb (status_code resp) 600); [discriminate|].
  rewrite Hdir_path, Hmk in Hd.
  destruct (os.write_file path (content resp) _) as [f2|e] eqn:Hw; [|discriminate].
  apply write_file_effect in Hw as [Hfiles Hdirs2].
  injection Hd as <- <-. cbn [fs gets set_fs set_gets].
  split; [reflexivity|]. split; [reflexivity|]. split; [exact Hdirs2|].
  exists resp. split; [reflexivity | exact Hfiles].
Qed.

End DownloadFootprint.

(** ** Properties of the commands of [pvr/cli.py] *)

Section CommandProperties.

Context `{platform : Platform}.

Lemma expanduser_envs (home : string) :
  expanduser home "~/.pvr/envs" = Py.rstrip "/" home +:+ "/.pvr/envs".
Proof.
  unfold expanduser. cbn [until_slash Ascii.eqb Bool.eqb String.eqb].
  destruct (Py.rstrip "/" home); reflexivity.
Qed.

Lemma ctx_dir_cli (user_cache_dir home : string) (obj : option ctx_obj) :
  ctx_dir (cli user_cache_dir home obj) "cache" = Return user_cache_dir
  /\ ctx_dir (cli user_cache_dir home obj) "environments"
     = Return (Py.rstrip "/" home +:+ "/.pvr/envs").
Proof.
  unfold ctx_dir, cli. rewrite lookup_insert_eq, expanduser_envs. split.
  - rewrite lookup_insert_ne by discriminate. now rewrite lookup_insert_eq.
  - now rewrite lookup_insert_eq.
Qed.

(** X11. After the group callback the context has the two directories of
    pvr, the cache directory exactly as [appdirs] reports it and the
    environments below the home directory (without a doubled slash, however
    the home directory is written); no other directory is defined, every
    other entry of the context is kept, and a missing context is replaced. *)
Theorem cli_sets_dirs (user_cache_dir home : string) (obj : option ctx_obj) :
  ctx_dir (cli user_cache_dir home obj) "cache" = Return user_cache_dir
  /\ ctx_dir (cli user_cache_dir home obj) "environments"
     = Return (Py.rstrip "/" home +:+ "/.pvr/envs")
  /\ (forall key, key <> "cache" -> key <> "environments" ->
        ctx_dir (cli user_cache_dir home obj) key = Raise (OtherError "KeyError"))
  /\ (forall k, k <> "dirs" ->
        cli user_cache_dir home obj !! k = default ∅ obj !! k).
Proof.
  destruct (ctx_dir_cli user_cache_dir home obj) as [Hc He].
  split; [exact Hc|]. split; [exact He|]. split.
  - intros key Hk1 Hk2. unfold ctx_dir, cli. rewrite lookup_insert_eq.
    rewrite !lookup_insert_ne by congruence. now rewrite lookup_empty.
  - intros k Hk. unfold cli. rewrite lookup_insert_ne by congruence.
    destruct obj; reflexivity.
Qed.

(** X12. [create] run after the group callback is [create] with the
    environments directory below the home directory and the cache
    directory of [appdirs]: the look-ups in the context cannot fail. *)
Theorem create_cmd_after_cli
  (user_cache_dir home : string) (obj : option ctx_obj) (name : string) (w : World) :
  create_cmd (cli user_cache_dir home obj) name w
  = create (Py.rstrip "/" home +:+ "/.pvr/envs") user_cache_dir name w.
Proof.
  destruct (ctx_dir_cli user_cache_dir home obj) as [Hc He].
  unfold create_cmd, create, bind, lift. rewrite He.
  unfold os_path_exists.
  destruct (os.path_exists _ (fs w)); [reflexivity|].
  destruct (builder_create _ (fs w)) as [[[]|e] f']; [|reflexivity].
  now rewrite Hc.
Qed.

(** X14. The target of a command is the join of the environments directory
    and the name: for a name that starts with a slash it is the name itself,
    so that [remove] deletes that tree wherever it is; for a name that does
    not, it lies below the environments directory. *)
Theorem remove_target (obj : ctx_obj) (name envs : string) (w : World) :
  ctx_dir obj "environments" = Return envs ->
  (Py.startswith name "/" = true ->
   remove obj name w = on_fs (shutil.rmtree name) w)
  /\ (Py.startswith name "/" = false -> envs <> EmptyString -> Py.endswith envs "/" = false ->
      remove obj name w = on_fs (shutil.rmtree (envs +:+ "/" +:+ name)) w).
Proof.
  intros Henvs. unfold remove, bind, lift. rewrite Henvs.
  unfold posixpath.join. cbn [fold_left]. unfold posixpath.join_step. split.
  - intros ->. reflexivity.
  - intros -> Hne ->. destruct (String.eqb_spec envs EmptyString); [contradiction|].
    reflexivity.
Qed.

Lemma split_first (sep : ascii) (a b : string) :
  Py.contains sep a = false ->
  Py.split sep (a +:+ String sep b) !! 0%nat = Some a.
Proof.
  induction a as [|x a IH]; intros Ha.
  - rewrite append_nil_l. simpl. now rewrite Ascii.eqb_refl.
  - rewrite append_cons. simpl in Ha |- *.
    apply orb_false_iff in Ha as [Hx Ha]. rewrite Hx.
    specialize (IH Ha).
    destruct (Py.split sep (a +:+ String sep b)) as [|tok toks]; [discriminate|].
    simpl in IH |- *. congruence.
Qed.

(** X15. When [exec_] reaches [os.execvpe], the environment exists, the
    program is the first word of the command and the arguments are the
    whole command; the environment handed over is [os.environ] with [PATH]
    replaced by the [bin] directory of the environment, a colon and the old
    [PATH] (or [os.defpath] when there was none), every other variable being
    as it was. When the [bin] directory contains no colon it is the first
    entry of the new [PATH]. Nothing in the world is changed. *)
Theorem exec_request_environment
  (obj : ctx_obj) (name : string) (command : list string)
  (environ : gmap string string) (w w' : World) (req : exec_request) :
  exec_ obj name command environ w = (Return req, w') ->
  exists envs,
    let target := posixpath.join envs [name] in
    let bin_dir := posixpath.join target ["bin"] in
    ctx_dir obj "environments" = Return envs
    /\ w' = w
    /\ os.path_exists target (fs w) = true
    /\ command !! 0%nat = Some (exec_file req)
    /\ exec_args req = command
    /\ exec_env req !! "PATH"
       = Some (bin_dir +:+ ":" +:+ default defpath (environ !! "PATH"))
    /\ (forall k, k <> "PATH" -> exec_env req !! k = environ !! k)
    /\ (Py.contains ":" bin_dir = false ->
        exists p, exec_env req !! "PATH" = Some p /\ Py.split ":" p !! 0%nat = Some bin_dir).
Proof.
  unfold exec_, bind, lift, os_path_exists, raise, ret.
  destruct (ctx_dir obj "environments") as [envs|e]; [|discriminate].
  destruct (os.path_exists (posixpath.join envs [name]) (fs w)) eqn:Hex; [|discriminate].
  cbn [negb].
  destruct (command !! 0%nat) as [file|] eqn:Hcmd; [|discriminate].
  intros [= <- <-]. exists envs. cbv zeta. cbn [exec_file exec_args exec_env].
  split; [reflexivity|]. split; [reflexivity|]. split; [exact Hex|].
  split; [reflexivity|]. split; [reflexivity|].
  split; [now rewrite lookup_insert_eq|].
  split; [intros k Hk; now rewrite lookup_insert_ne by congruence|].
  intros Hcolon. eexists. split; [now rewrite lookup_insert_eq|].
  unfold pathsep. apply (split_first ":" _ _ Hcolon).
Qed.

End CommandProperties.

(** ** The further properties on the sample site *)

(** Settle a decidable proposition about closed terms by evaluating its
    decision procedure. *)
Ltac by_evaluation :=
  match goal with
  | |- ?P => apply (bool_decide_unpack P); vm_compute; exact I
  end.

Lemma candidates_depend_on_wheel_links_witness :
  candidates_loop (platform := site)
    (links (feed (platform := site)
              (LinkExtractor_init "https://pypi.python.org/simple/pip/") Site.page_main)) []
  = candidates_loop (platform := site) (map url candidates_main) [].
Proof.
  apply (candidates_depend_on_wheel_links (platform := site)).
  vm_compute. reflexivity.
Defined.

Lemma download_keeps_existing_entries_witness :
  files (fs (snd (download (platform := site) (installer0 "/envs/ok") pip_stale world1)))
    !! path_2_0_0 = Some Site.wheel_bytes
  /\ "/cache" ∈ dirs (fs (snd (download (platform := site) (installer0 "/envs/ok")
                                 pip_stale world1))).
Proof.
  destruct (download_keeps_existing_entries (platform := site)
              (installer0 "/envs/ok") pip_stale world1 path_2_0_0) as [Hfile _].
  destruct (download_keeps_existing_entries (platform := site)
              (installer0 "/envs/ok") pip_stale world1 "/cache") as [_ Hdir].
  split.
  - apply Hfile. vm_compute. reflexivity.
  - apply Hdir. by_evaluation.
Defined.

Lemma download_requests_at_most_once_witness :
  gets (snd (download (platform := site) (installer0 "/envs/ok") pip_2_0_0 world1))
  = gets world1.
Proof.
  apply (download_requests_at_most_once (platform := site)
           (installer0 "/envs/ok") pip_2_0_0 world1) with "/cache".
  - reflexivity.
  - vm_compute. reflexivity.
Defined.

Lemma install_without_cache_dir_witness :
  install (platform := site) installer_nocache world0
  = (Raise TypeError, set_gets ["https://pypi.python.org/simple/pip/"] world0)
  /\ procs (set_gets ["https://pypi.python.org/simple/pip/"] world0) = procs world0
  /\ fs (set_gets ["https://pypi.python.org/simple/pip/"] world0) = fs world0
  /\ gets (set_gets ["https://pypi.python.org/simple/pip/"] world0)
     = gets world0 ++ [urljoin (Platform := site) default_index_url (Some "pip/")].
Proof.
  apply (install_without_cache_dir (platform := site) installer_nocache world0 eq_refl)
    with pip_2_0_0.
  vm_compute. reflexivity.
Defined.

Lemma install_composition_witness :
  (install (platform := site_offline) (installer0 "/envs/ok") world0
   = (Raise ConnectionError, set_gets ["https://pypi.python.org/simple/pip/"] world0)
   /\ procs (set_gets ["https://pypi.python.org/simple/pip/"] world0) = procs world0
   /\ fs (set_gets ["https://pypi.python.org/simple/pip/"] world0) = fs world0)
  /\ (install (platform := site) installer_nocache world0
      = (Raise TypeError, set_gets ["https://pypi.python.org/simple/pip/"] world0)
      /\ procs (set_gets ["https://pypi.python.org/simple/pip/"] world0) = procs world0)
  /\ fst (install (platform := site) (installer0 "/envs/ok") world0) = Return tt.
Proof.
  split; [|split].
  - apply (install_composition (platform := site_offline) (installer0 "/envs/ok") world0).
    vm_compute. reflexivity.
  - apply (proj1 (proj2 (install_composition (platform := site) installer_nocache world0)))
      with pip_2_0_0 (set_gets ["https://pypi.python.org/simple/pip/"] world0).
    + vm_compute. reflexivity.
    + vm_compute. reflexivity.
  - rewrite (proj2 (proj2 (install_composition (platform := site)
                             (installer0 "/envs/ok") world0))
               pip_2_0_0 (set_gets ["https://pypi.python.org/simple/pip/"] world0)
               path_2_0_0
               (snd (download (platform := site) (installer0 "/envs/ok") pip_2_0_0
                       (set_gets ["https://pypi.python.org/simple/pip/"] world0)))
               (fs (snd (download (platform := site) (installer0 "/envs/ok") pip_2_0_0
                           (set_gets ["https://pypi.python.org/simple/pip/"] world0)))));
      [reflexivity | vm_compute; reflexivity | vm_compute; reflexivity
      | vm_compute; reflexivity].
Defined.

Lemma with_installer_closes_witness :
  sessions (snd (with_installer (PipInstaller_init "/envs/broken" (Some "/cache"))
                   (install (platform := site)) world0)) !! length (sessions world0)
  = Some false
  /\ (forall i, i <> length (sessions world0) ->
        sessions (snd (with_installer (PipInstaller_init "/envs/broken" (Some "/cache"))
                         (install (platform := site)) world0)) !! i
        = sessions (snd (install (platform := site)
                           {| environment := "/envs/broken"; cache_dir := Some "/cache";
                              session := length (sessions world0) |}
                           (set_sessions (sessions world0 ++ [true]) world0))) !! i)
  /\ fst (with_installer (PipInstaller_init "/envs/broken" (Some "/cache"))
            (install (platform := site)) world0)
     = fst (install (platform := site)
              {| environment := "/envs/broken"; cache_dir := Some "/cache";
                 session := length (sessions world0) |}
              (set_sessions (sessions world0 ++ [true]) world0)).
Proof.
  apply (with_installer_closes (install (platform := site)) "/envs/broken" (Some "/cache")
           world0).
  vm_compute. lia.
Defined.

Lemma download_miss_footprint_witness :
  path_2_0_0 = ("/cache" +:+ "/" +:+ hashed (platform := site) pip_2_0_0) +:+ "/"
               +:+ filename pip_2_0_0
  /\ gets world1 = gets world0 ++ [url pip_2_0_0]
  /\ dirs (fs world1)
     = {["/cache" +:+ "/" +:+ hashed (platform := site) pip_2_0_0]} ∪ dirs (fs world0)
  /\ exists resp,
       http_get (Platform := site) (gets world0) (url pip_2_0_0) = Some resp
       /\ files (fs world1) = <[path_2_0_0 := content resp]> (files (fs world0)).
Proof.
  apply (download_miss_footprint (platform := site) sha256_digest_size
           (installer0 "/envs/ok") pip_2_0_0 world0 world1 "/cache" path_2_0_0).
  - reflexivity.
  - discriminate.
  - vm_compute. reflexivity.
  - by_evaluation.
  - vm_compute. reflexivity.
  - vm_compute. reflexivity.
  - split; [vm_compute; reflexivity|]. split; [vm_compute; reflexivity|].
    exists "2.0.0". split; vm_compute; reflexivity.
  - vm_compute. reflexivity.
  - vm_compute. reflexivity.
Defined.

Lemma cli_sets_dirs_witness :
  ctx_dir ctx0 "cache" = Return "/home/u/.cache/pvr"
  /\ ctx_dir ctx0 "environments" = Return (Py.rstrip "/" "/home/u" +:+ "/.pvr/envs")
  /\ ctx_dir ctx0 "data" = Raise (OtherError "KeyError")
  /\ ctx0 !! "verbose" = default (∅ : ctx_obj) None !! "verbose".
Proof.
  destruct (cli_sets_dirs "/home/u/.cache/pvr" "/home/u" None) as (Hc & He & Hk & Ho).
  split; [exact Hc|]. split; [exact He|]. split.
  - apply Hk; discriminate.
  - apply Ho. discriminate.
Defined.

Lemma remove_target_witness :
  remove ctx0 "/home/u" world_envs = on_fs (shutil.rmtree "/home/u") world_envs
  /\ remove ctx0 "a" world_envs
     = on_fs (shutil.rmtree ("/home/u/.pvr/envs" +:+ "/" +:+ "a")) world_envs.
Proof.
  destruct (remove_target ctx0 "/home/u" "/home/u/.pvr/envs" world_envs eq_refl) as [Habs _].
  destruct (remove_target ctx0 "a" "/home/u/.pvr/envs" world_envs eq_refl) as [_ Hrel].
  split.
  - apply Habs. reflexivity.
  - apply Hrel; [reflexivity | discriminate | vm_compute; reflexivity].
Defined.

(** [remove] with an absolute name reaches outside the environments. *)
Example remove_outside_environments :
  files (fs (snd (remove ctx0 "/home/u" world_envs))) = ∅
  /\ dirs (fs (snd (remove ctx0 "/home/u" world_envs))) = ∅.
Proof. split; vm_compute; reflexivity. Qed.

Lemma exec_request_environment_witness :
  exists envs,
    let target := posixpath.join envs ["a"] in
    let bin_dir := posixpath.join target ["bin"] in
    ctx_dir ctx0 "environments" = Return envs
    /\ world_envs = world_envs
    /\ os.path_exists target (fs world_envs) = true
    /\ ["python"; "-V"] !! 0%nat
       = Some (exec_file {| exec_file := "python"; exec_args := ["python"; "-V"];
                            exec_env := <["PATH" := "/home/u/.pvr/envs/a/bin:/usr/local/bin:/usr/bin"]> environ0 |})
    /\ exec_args {| exec_file := "python"; exec_args := ["python"; "-V"];
                    exec_env := <["PATH" := "/home/u/.pvr/envs/a/bin:/usr/local/bin:/usr/bin"]> environ0 |}
       = ["python"; "-V"]
    /\ exec_env {| exec_file := "python"; exec_args := ["python"; "-V"];
                   exec_env := <["PATH" := "/home/u/.pvr/envs/a/bin:/usr/local/bin:/usr/bin"]> environ0 |}
         !! "PATH"
       = Some (bin_dir +:+ ":" +:+ default defpath (environ0 !! "PATH"))
    /\ (forall k, k <> "PATH" ->
          exec_env {| exec_file := "python"; exec_args := ["python"; "-V"];
                      exec_env := <["PATH" := "/home/u/.pvr/envs/a/bin:/usr/local/bin:/usr/bin"]> environ0 |}
            !! k = environ0 !! k)
    /\ (Py.contains ":" bin_dir = false ->
        exists p,
          exec_env {| exec_file := "python"; exec_args := ["python"; "-V"];
                      exec_env := <["PATH" := "/home/u/.pvr/envs/a/bin:/usr/local/bin:/usr/bin"]> environ0 |}
            !! "PATH" = Some p
          /\ Py.split ":" p !! 0%nat = Some bin_dir).
Proof.
  apply (exec_request_environment ctx0 "a" ["python"; "-V"] environ0 world_envs world_envs).
  vm_compute. reflexivity.
Defined.

(** The request of [pvr exec a python -V]. *)
Example exec_on_site :
  fst (exec_ ctx0 "a" ["python"; "-V"] environ0 world_envs)
  = Return {| exec_file := "python"; exec_args := ["python"; "-V"];
              exec_env := {[ "PATH" := "/home/u/.pvr/envs/a/bin:/usr/local/bin:/usr/bin";
                             "LANG" := "C" ]} |}.
Proof. vm_compute. reflexivity. Qed.

Lemma find_error_causes_witness :
  fst (find (platform := site) (installer0 "/envs/ok") "https://index.example/missing/" world0)
  = Raise (HTTPError 404)
  /\ exists resp link,
       http_get (Platform := site) (gets world0)
         (urljoin (Platform := site) "https://index.example/odd/" (Some "pip/")) = Some resp
       /\ status_ok resp
       /\ In link (links (feed (platform := site)
                           (LinkExtractor_init
                              (urljoin (Platform := site) "https://index.example/odd/"
                                 (Some "pip/")))
                           (text resp)))
       /\ is_wheel (platform := site) link = true
       /\ Py.split "-" (link_filename (platform := site) link) !! 1%nat = Some "zzz"
       /\ version_parse (Platform := site) "zzz" = None.
Proof.
  destruct (find_error_causes (platform := site) (installer0 "/envs/ok")
              "https://index.example/missing/" world0) as [Hhttp _].
  destruct (find_error_causes (platform := site) (installer0 "/envs/ok")
              "https://index.example/odd/" world0) as [_ Hinvalid].
  split.
  - apply (Hhttp {| status_code := 404; text := "Not Found";
                    content := Py.encode_utf8 "Not Found" |}).
    + vm_compute. reflexivity.
    + simpl. lia.
  - apply Hinvalid. vm_compute. reflexivity.
Defined.

Lemma find_only_requests_witness :
  fs (snd (find (platform := site) (installer0 "/envs/ok") default_index_url world0))
  = fs world0
  /\ sessions (snd (find (platform := site) (installer0 "/envs/ok") default_index_url world0))
     = sessions world0
  /\ procs (snd (find (platform := site) (installer0 "/envs/ok") default_index_url world0))
     = procs world0
  /\ exists extra,
       gets (snd (find (platform := site) (installer0 "/envs/ok") default_index_url world0))
       = gets world0 ++ extra
       /\ (length extra <= 1)%nat
       /\ forall u, In u extra ->
            u = urljoin (Platform := site) default_index_url (Some "pip/").
Proof.
  apply (find_only_requests (platform := site) (installer0 "/envs/ok") default_index_url
           world0).
Defined.
